(** * TileMapServiceImageryProvider: metadata resolution and tile addressing

    A shallow embedding of [Source/Scene/TileMapServiceImageryProvider.js]:
    the constructor, its two metadata callbacks [metadataSuccess] and
    [metadataFailure], and [buildImageUrl].

    JavaScript numbers are modelled by role.  Geographic coordinates
    (degrees, radians, projected metres) are IEEE binary64 values, Rocq's
    primitive [float].  Integer quantities (tile indices, levels, pixel
    sizes, tile counts) are [Num]: an integer, or [NaN], which is what
    [parseInt] returns on text that does not start with digits.  Integer
    doubles are exact up to 2^53, far above any tile index.

    A value that may be [undefined] is an [option]; an XML attribute value
    is the string or [null], again an [option].  A property access on
    [undefined] throws a [TypeError], as the engine does. *)

From Stdlib Require Import ZArith Bool List String Ascii Lia Floats.
From Stdlib Require DecimalString.
From Stdlib Require DecimalZ DecimalPos.
Import ListNotations.

Local Open Scope string_scope.
Local Open Scope Z_scope.

(* ================================================================== *)
(** ** Strings and the node-name patterns *)

(** ASCII case folding: the [i] flag of a pattern made of ASCII letters
    can only identify the two cases of an ASCII letter. *)
Definition lower (c : ascii) : ascii :=
  let n := nat_of_ascii c in
  if (Nat.leb 65 n && Nat.leb n 90)%bool then ascii_of_nat (n + 32) else c.

Fixpoint prefix_ci (p s : string) : bool :=
  match p, s with
  | EmptyString, _ => true
  | String _ _, EmptyString => false
  | String a p', String b s' => (Ascii.eqb (lower a) (lower b) && prefix_ci p' s')%bool
  end.

(** [test p s]: the regular expression [/p/i], for a literal [p], finds a
    match somewhere in [s]. *)
Fixpoint test (p s : string) : bool :=
  (prefix_ci p s ||
   match s with
   | EmptyString => false
   | String _ s' => test p s'
   end)%bool.

Definition tileFormatRegex := "tileformat".
Definition tileSetRegex := "tileset".
Definition tileSetsRegex := "tilesets".
Definition bboxRegex := "boundingbox".
Definition srsRegex := "srs".

(* ================================================================== *)
(** ** Integer-valued numbers *)

Inductive Num : Type :=
| NaN
| Int (z : Z).

Definition Num_lift2 (f : Z -> Z -> Z) (a b : Num) : Num :=
  match a, b with
  | Int x, Int y => Int (f x y)
  | _, _ => NaN
  end.

Definition Num_sub := Num_lift2 Z.sub.
Definition Num_add := Num_lift2 Z.add.
Definition Num_mul := Num_lift2 Z.mul.

(** [Math.abs]. *)
Definition Num_abs (a : Num) : Num :=
  match a with
  | Int x => Int (Z.abs x)
  | NaN => NaN
  end.

(** [a > b]; every comparison with [NaN] is false. *)
Definition Num_gtb (a b : Num) : bool :=
  match a, b with
  | Int x, Int y => Z.ltb y x
  | _, _ => false
  end.

(** The string a number becomes under [+] with a string. *)
Definition Num_toString (a : Num) : string :=
  match a with
  | NaN => "NaN"
  | Int z => DecimalString.NilZero.string_of_int (Z.to_int z)
  end.

(** An attribute value: the string, or [null]. *)
Definition Attr := option string.

Definition Attr_toString (a : Attr) : string :=
  match a with
  | Some s => s
  | None => "null"
  end.

(** [a === 'literal']. *)
Definition Attr_is (a : Attr) (lit : string) : bool :=
  match a with
  | Some s => String.eqb s lit
  | None => false
  end.

(** A field read as a number: the number it was assigned, [NaN] while it
    is still [undefined]. *)
Definition ToNumber (v : option Num) : Num :=
  match v with
  | Some n => n
  | None => NaN
  end.

(** A field that holds a string, [null], or nothing yet. *)
Definition Field_toString (f : option Attr) : string :=
  match f with
  | Some a => Attr_toString a
  | None => "undefined"
  end.

(* ================================================================== *)
(** ** Core value types: Cartesian2, Cartographic, Rectangle

    Plain data of [Source/Core]; each lives in a module of its name, so
    that [Rectangle.west r] reads as [r.west] does. *)

Module Cartesian2.
Record t : Type := new { x : float; y : float }.
End Cartesian2.

Module Cartographic.
Record t : Type := new { longitude : float; latitude : float; height : float }.
End Cartographic.

Module Rectangle.
Record t : Type := new { west : float; south : float; east : float; north : float }.

Definition southwest (r : t) : Cartographic.t :=
    Cartographic.new (west r) (south r) 0%float.

Definition northeast (r : t) : Cartographic.t :=
    Cartographic.new (east r) (north r) 0%float.
End Rectangle.

(** A tile index, as [positionToTileXY] returns it: a [Cartesian2] whose
    components are integers. *)
Module TileXY.
Record t : Type := new { x : Num; y : Num }.
End TileXY.

(* ================================================================== *)
(** ** The XML document *)

#[warnings="-register-all"]
Inductive Node : Type :=
  mkNode { nodeName : string;
           attributes : list (string * string);
           childNodes : list Node;
           textContent : string }.

Record Document : Type := mkDocument { doc_childNodes : list Node }.

Fixpoint assoc (k : string) (l : list (string * string)) : Attr :=
  match l with
  | [] => None
  | (k', v) :: l' => if String.eqb k k' then Some v else assoc k l'
  end.

(** [node.getAttribute(name)]: [null] when the attribute is absent. *)
Definition getAttribute (n : Node) (name : string) : Attr :=
  assoc name (attributes n).


(* ================================================================== *)
(** ** Collaborators that are objects *)

(** A tiling scheme, as this file uses one: the class [instanceof] sees,
    the bounding rectangle, [projection.unproject], [positionToTileXY]
    (which may answer [undefined]) and [getNumberOfYTilesAtLevel]. *)
Inductive SchemeClass : Type :=
| GeographicTilingSchemeClass
| WebMercatorTilingSchemeClass
| OtherSchemeClass.

Module TilingScheme.
Record methods : Type :=
  Methods { rectangle : Rectangle.t;
            unproject : Cartesian2.t -> Cartographic.t;
            positionToTileXY : Cartographic.t -> Num -> option TileXY.t;
            getNumberOfYTilesAtLevel : Num -> Num }.

Record t : Type := new { classOf : SchemeClass; impl : methods }.
End TilingScheme.

Coercion TilingScheme.impl : TilingScheme.t >-> TilingScheme.methods.

(** [s instanceof GeographicTilingScheme]; [undefined] is an instance of
    nothing. *)
Definition instanceofGeographicTilingScheme (s : option TilingScheme.t) : bool :=
  match s with
  | Some ts =>
      match TilingScheme.classOf ts with
      | GeographicTilingSchemeClass => true
      | _ => false
      end
  | None => false
  end.

Record Proxy : Type := mkProxy { getURL : string -> string }.

(** The deferred behind [readyPromise]; once settled it stays as it is. *)
Inductive Deferred : Type :=
| Pending
| Resolved (value : bool)
| Rejected (message : string).

Definition resolve (v : bool) (d : Deferred) : Deferred :=
  match d with
  | Pending => Resolved v
  | _ => d
  end.

(** [d.reject(new RuntimeError(message))]. *)
Definition reject (message : string) (d : Deferred) : Deferred :=
  match d with
  | Pending => Rejected message
  | _ => d
  end.

(* ================================================================== *)
(** ** [defined] and [defaultValue] *)

(** Modelled from the spec: Core/defined and Core/defaultValue are not
    in the source file.  A value that was not supplied is [None]. *)
Definition defined {A : Type} (a : option A) : bool :=
  match a with
  | Some _ => true
  | None => false
  end.

Definition defaultValue {A : Type} (a : option A) (b : A) : A :=
  match a with
  | Some v => v
  | None => b
  end.

(* ================================================================== *)
(** ** The provider object *)

(** The fields of [this] that the metadata callbacks and [buildImageUrl]
    read or write.  [_tileDiscardPolicy], [_errorEvent] and [_credit] are
    only stored by the constructor and are left out. *)
Record Provider : Type :=
  mkProvider { _url : string;
               _ready : bool;
               _readyPromise : Deferred;
               _proxy : option Proxy;
               _fileExtension : option Attr;
               _tileWidth : option Num;
               _tileHeight : option Num;
               _minimumLevel : option Num;
               _maximumLevel : option Num;
               _rectangle : option Rectangle.t;
               _tilingScheme : option TilingScheme.t }.

Definition set_ready (v : bool) (p : Provider) : Provider :=
  mkProvider (_url p) v (_readyPromise p) (_proxy p) (_fileExtension p)
    (_tileWidth p) (_tileHeight p) (_minimumLevel p) (_maximumLevel p)
    (_rectangle p) (_tilingScheme p).

Definition set_readyPromise (v : Deferred) (p : Provider) : Provider :=
  mkProvider (_url p) (_ready p) v (_proxy p) (_fileExtension p)
    (_tileWidth p) (_tileHeight p) (_minimumLevel p) (_maximumLevel p)
    (_rectangle p) (_tilingScheme p).

Definition set_fileExtension (v : option Attr) (p : Provider) : Provider :=
  mkProvider (_url p) (_ready p) (_readyPromise p) (_proxy p) v
    (_tileWidth p) (_tileHeight p) (_minimumLevel p) (_maximumLevel p)
    (_rectangle p) (_tilingScheme p).

Definition set_tileWidth (v : option Num) (p : Provider) : Provider :=
  mkProvider (_url p) (_ready p) (_readyPromise p) (_proxy p) (_fileExtension p)
    v (_tileHeight p) (_minimumLevel p) (_maximumLevel p)
    (_rectangle p) (_tilingScheme p).

Definition set_tileHeight (v : option Num) (p : Provider) : Provider :=
  mkProvider (_url p) (_ready p) (_readyPromise p) (_proxy p) (_fileExtension p)
    (_tileWidth p) v (_minimumLevel p) (_maximumLevel p)
    (_rectangle p) (_tilingScheme p).

Definition set_minimumLevel (v : option Num) (p : Provider) : Provider :=
  mkProvider (_url p) (_ready p) (_readyPromise p) (_proxy p) (_fileExtension p)
    (_tileWidth p) (_tileHeight p) v (_maximumLevel p)
    (_rectangle p) (_tilingScheme p).

Definition set_maximumLevel (v : option Num) (p : Provider) : Provider :=
  mkProvider (_url p) (_ready p) (_readyPromise p) (_proxy p) (_fileExtension p)
    (_tileWidth p) (_tileHeight p) (_minimumLevel p) v
    (_rectangle p) (_tilingScheme p).

Definition set_rectangle (v : option Rectangle.t) (p : Provider) : Provider :=
  mkProvider (_url p) (_ready p) (_readyPromise p) (_proxy p) (_fileExtension p)
    (_tileWidth p) (_tileHeight p) (_minimumLevel p) (_maximumLevel p)
    v (_tilingScheme p).

Definition set_tilingScheme (v : option TilingScheme.t) (p : Provider) : Provider :=
  mkProvider (_url p) (_ready p) (_readyPromise p) (_proxy p) (_fileExtension p)
    (_tileWidth p) (_tileHeight p) (_minimumLevel p) (_maximumLevel p)
    (_rectangle p) v.

(* ================================================================== *)
(** ** Scanning the document (the loop of [metadataSuccess]) *)

(** The variables the loop assigns: [format], [bbox], [tilesets], [srs]
    and the list [tilesetsList]. *)
Record Locals : Type :=
  mkLocals { format : option Node;
             bbox : option Node;
             tilesets : option Node;
             srs : option string;
             tilesetsList : list Node }.

Definition noLocals : Locals := mkLocals None None None None [].

(** The inner loop: push every child whose name matches [/tileset/i]. *)
Definition pushTileSet (l : list Node) (c : Node) : list Node :=
  if test tileSetRegex (nodeName c) then l ++ [c] else l.

(** One turn of the outer loop: the [if] / [else if] chain on the node
    name.  A later node of a kind replaces an earlier one. *)
Definition visit (v : Locals) (n : Node) : Locals :=
  if test tileFormatRegex (nodeName n) then
    mkLocals (Some n) (bbox v) (tilesets v) (srs v) (tilesetsList v)
  else if test tileSetsRegex (nodeName n) then
    mkLocals (format v) (bbox v) (Some n) (srs v)
      (fold_left pushTileSet (childNodes n) (tilesetsList v))
  else if test bboxRegex (nodeName n) then
    mkLocals (format v) (Some n) (tilesets v) (srs v) (tilesetsList v)
  else if test srsRegex (nodeName n) then
    mkLocals (format v) (bbox v) (tilesets v) (Some (textContent n)) (tilesetsList v)
  else v.

Definition scanNodes (nodeList : list Node) : Locals :=
  fold_left visit nodeList noLocals.

(** [list[i]]: [undefined] past the end. *)
Definition item {A : Type} (l : list A) (i : Z) : option A :=
  if i <? 0 then None else nth_error l (Z.to_nat i).

(* ================================================================== *)
(** ** Clamping and the tile count *)

Local Open Scope float_scope.

(** The four [if]s that keep the rectangle inside [bounds], the tiling
    scheme's rectangle; they run in the order west, east, south, north
    and each writes one edge. *)
Definition clampToScheme (bounds r : Rectangle.t) : Rectangle.t :=
  let r1 := if Rectangle.west r <? Rectangle.west bounds
            then Rectangle.new (Rectangle.west bounds) (Rectangle.south r)
                               (Rectangle.east r) (Rectangle.north r)
            else r in
  let r2 := if Rectangle.east bounds <? Rectangle.east r1
            then Rectangle.new (Rectangle.west r1) (Rectangle.south r1)
                               (Rectangle.east bounds) (Rectangle.north r1)
            else r1 in
  let r3 := if Rectangle.south r2 <? Rectangle.south bounds
            then Rectangle.new (Rectangle.west r2) (Rectangle.south bounds)
                               (Rectangle.east r2) (Rectangle.north r2)
            else r2 in
  if Rectangle.north bounds <? Rectangle.north r3
  then Rectangle.new (Rectangle.west r3) (Rectangle.south r3)
                     (Rectangle.east r3) (Rectangle.north bounds)
  else r3.

Local Close Scope float_scope.

(** [(Math.abs(neTile.x - swTile.x) + 1) * (Math.abs(neTile.y - swTile.y) + 1)] *)
Definition tileCount (swTile neTile : TileXY.t) : Num :=
  Num_mul
    (Num_add (Num_abs (Num_sub (TileXY.x neTile) (TileXY.x swTile))) (Int 1))
    (Num_add (Num_abs (Num_sub (TileXY.y neTile) (TileXY.y swTile))) (Int 1)).

(** The flipped row of [buildImageUrl]: [yTiles - y - 1]. *)
Definition flippedRow (yTiles y : Num) : Num :=
  Num_sub (Num_sub yTiles y) (Int 1).

(** [flipXY] as the profile decides it. *)
Definition flipXY_of (tilingSchemeName : Attr) : bool :=
  if (Attr_is tilingSchemeName "geodetic" || Attr_is tilingSchemeName "mercator")%bool
  then true else false.

(* ================================================================== *)
(** ** Statements: state, exceptions and [return] *)

Inductive Exception : Type :=
| TypeError (undefinedValue : string).

(** How a statement ends: normally with a value, by [return], or by a
    thrown exception. *)
Inductive Completion (A : Type) : Type :=
| Normal (a : A)
| Return
| Throw (e : Exception).

Arguments Normal {A} a.
Arguments Return {A}.
Arguments Throw {A} e.

Section Statements.

(** The state the closures share. *)
Variable State : Type.

Definition M (A : Type) : Type := State -> Completion A * State.

Definition ret {A : Type} (a : A) : M A := fun s => (Normal a, s).

Definition bind {A B : Type} (m : M A) (k : A -> M B) : M B :=
  fun s =>
    match m s with
    | (Normal a, s') => k a s'
    | (Return, s') => (Return, s')
    | (Throw e, s') => (Throw e, s')
    end.

Definition get : M State := fun s => (Normal s, s).

Definition modify (f : State -> State) : M unit := fun s => (Normal tt, f s).

Definition throw {A : Type} (e : Exception) : M A := fun s => (Throw e, s).

(** The statement [return;]. *)
Definition return_ {A : Type} : M A := fun s => (Return, s).

(** Reading a property of [o], named [what] in the source: a
    [TypeError] when [o] is [undefined]. *)
Definition deref {A : Type} (what : string) (o : option A) : M A :=
  match o with
  | Some a => ret a
  | None => throw (TypeError what)
  end.

(** [if (c) { m }] *)
Definition when_ (c : bool) (m : M unit) : M unit :=
  if c then m else ret tt.

(** Calling a function whose body is [m]: a [return] ends the call
    normally. *)
Definition call (m : M unit) : M unit :=
  fun s =>
    match m s with
    | (Return, s') => (Normal tt, s')
    | r => r
    end.

End Statements.

Arguments ret {State A} a.
Arguments bind {State A B} m k.
Arguments get {State}.
Arguments modify {State} f.
Arguments throw {State A} e.
Arguments return_ {State A}.
Arguments deref {State A} what o.
Arguments when_ {State} c m.
Arguments call {State} m.

Declare Scope stmt_scope.
Delimit Scope stmt_scope with stmt.

Notation "x <- m ;; k" := (bind m (fun x => k))
  (at level 61, m at next level, right associativity) : stmt_scope.
Notation "m ;; k" := (bind m (fun _ => k))
  (at level 61, right associativity) : stmt_scope.

(* ================================================================== *)
(** ** What the file imports *)

(** Everything [TileMapServiceImageryProvider.js] uses and this
    development does not define: [Ellipsoid] and [TileProviderError]
    objects, the built-ins [parseInt(_, 10)] and [parseFloat], Core's
    [joinUrls] and [CesiumMath.toRadians], [TileProviderError.handleError]
    (given the previous error and the message), and the methods of the
    two tiling schemes the file constructs.  What the listeners of the
    error event do, a retry included, is not part of this development:
    [handleError] only makes the error object. *)
Class Imports : Type :=
  { Ellipsoid : Type;
    TileProviderError : Type;
    parseInt : Attr -> Num;
    parseFloat : Attr -> float;
    joinUrls : string -> string -> string;
    toRadians : float -> float;
    handleError : option TileProviderError -> string -> TileProviderError;
    geographicMethods : option Ellipsoid -> TilingScheme.methods;
    webMercatorMethods : option Ellipsoid -> TilingScheme.methods }.

(* ================================================================== *)
(** ** The constructor and its closures *)

Section TileMapService.

Local Open Scope stmt_scope.

Context {imports : Imports}.

(** [new GeographicTilingScheme({ ellipsoid : e })] and
    [new WebMercatorTilingScheme({ ellipsoid : e })]. *)
Definition GeographicTilingScheme (e : option Ellipsoid) : TilingScheme.t :=
  TilingScheme.new GeographicTilingSchemeClass (geographicMethods e).

Definition WebMercatorTilingScheme (e : option Ellipsoid) : TilingScheme.t :=
  TilingScheme.new WebMercatorTilingSchemeClass (webMercatorMethods e).

(** Modelled from the spec: Core/Cartographic is not in the source
    file; [Cartographic.fromDegrees(longitude, latitude)] converts both
    angles from degrees to radians, at height zero. *)
Definition Cartographic_fromDegrees (lon lat : float) : Cartographic.t :=
  Cartographic.new (toRadians lon) (toRadians lat) 0%float.

(** The [options] object.  [url] is required. *)
Record Options : Type :=
  mkOptions { url : string;
              proxy : option Proxy;
              fileExtension : option string;
              tileWidth : option Num;
              tileHeight : option Num;
              minimumLevel : option Num;
              maximumLevel : option Num;
              rectangle : option Rectangle.t;
              tilingScheme : option TilingScheme.t;
              ellipsoid : option Ellipsoid }.

(** What the closures share: the provider [that] and the variable
    [metadataError]. *)
Record Closure : Type :=
  mkClosure { that : Provider;
              metadataError : option TileProviderError }.

Definition assign (f : Provider -> Provider) : M Closure unit :=
  modify (fun c => mkClosure (f (that c)) (metadataError c)).

Definition read {A : Type} (field : Provider -> A) : M Closure A :=
  c <- get ;; ret (field (that c)).

(** [node.getAttribute(name)] on a variable that may hold no node. *)
Definition getAttributeOf (what : string) (node : option Node) (name : string)
  : M Closure Attr :=
  n <- deref what node ;; ret (getAttribute n name).

(** The body of the constructor up to [requestMetadata()].
    [Rectangle.clone] copies the rectangle, or passes [undefined] on. *)
Definition TileMapServiceImageryProvider (options : Options) : Closure :=
  mkClosure
    (mkProvider (url options) false Pending (proxy options)
       (option_map Some (fileExtension options))
       (tileWidth options) (tileHeight options)
       (minimumLevel options) (maximumLevel options)
       (rectangle options) (tilingScheme options))
    None.

(** The unsupported-profile message. *)
Definition unsupportedProfileMessage (url : string) (tilingSchemeName : Attr) : string :=
  joinUrls url "tilemapresource.xml" ++ "specifies an unsupported profile attribute, "
    ++ Attr_toString tilingSchemeName ++ ".".

(** The rectangle of the bounding box, when [options] gave none. *)
Definition deriveRectangle (flipXY : bool) (bbox : option Node) : M Closure unit :=
  sw_ne <-
    (if flipXY then
       miny <- getAttributeOf "bbox" bbox "miny" ;;
       minx <- getAttributeOf "bbox" bbox "minx" ;;
       let swXY := Cartesian2.new (parseFloat miny) (parseFloat minx) in
       maxy <- getAttributeOf "bbox" bbox "maxy" ;;
       maxx <- getAttributeOf "bbox" bbox "maxx" ;;
       let neXY := Cartesian2.new (parseFloat maxy) (parseFloat maxx) in
       ret (Cartographic_fromDegrees (Cartesian2.x swXY) (Cartesian2.y swXY),
            Cartographic_fromDegrees (Cartesian2.x neXY) (Cartesian2.y neXY))
     else
       minx <- getAttributeOf "bbox" bbox "minx" ;;
       miny <- getAttributeOf "bbox" bbox "miny" ;;
       let swXY := Cartesian2.new (parseFloat minx) (parseFloat miny) in
       maxx <- getAttributeOf "bbox" bbox "maxx" ;;
       maxy <- getAttributeOf "bbox" bbox "maxy" ;;
       let neXY := Cartesian2.new (parseFloat maxx) (parseFloat maxy) in
       scheme <- read _tilingScheme ;;
       if instanceofGeographicTilingScheme scheme then
         ret (Cartographic_fromDegrees (Cartesian2.x swXY) (Cartesian2.y swXY),
              Cartographic_fromDegrees (Cartesian2.x neXY) (Cartesian2.y neXY))
       else
         ts <- deref "that._tilingScheme" scheme ;;
         let projection := TilingScheme.unproject ts in
         ret (projection swXY, projection neXY)) ;;
  let sw := fst sw_ne in
  let ne := snd sw_ne in
  assign (set_rectangle
            (Some (Rectangle.new (Cartographic.longitude sw) (Cartographic.latitude sw)
                                 (Cartographic.longitude ne) (Cartographic.latitude ne)))).

Definition metadataSuccess (options : Options) (xml : Document) : M Closure unit :=
  (* Iterate XML Document nodes for properties *)
  root <- deref "xml.childNodes[0]" (item (doc_childNodes xml) 0) ;;
  let nodeList := childNodes root in
  let v := scanNodes nodeList in

  extension <- getAttributeOf "format" (format v) "extension" ;;
  old <- read _fileExtension ;;
  assign (set_fileExtension (Some (defaultValue old extension))) ;;
  width <- getAttributeOf "format" (format v) "width" ;;
  old <- read _tileWidth ;;
  assign (set_tileWidth (Some (defaultValue old (parseInt width)))) ;;
  height <- getAttributeOf "format" (format v) "height" ;;
  old <- read _tileHeight ;;
  assign (set_tileHeight (Some (defaultValue old (parseInt height)))) ;;
  order <- getAttributeOf "tilesetsList[0]" (item (tilesetsList v) 0) "order" ;;
  old <- read _minimumLevel ;;
  assign (set_minimumLevel (Some (defaultValue old (parseInt order)))) ;;
  order <- getAttributeOf "tilesetsList[tilesetsList.length - 1]"
             (item (tilesetsList v) (Z.of_nat (List.length (tilesetsList v)) - 1)) "order" ;;
  old <- read _maximumLevel ;;
  assign (set_maximumLevel (Some (defaultValue old (parseInt order)))) ;;

  tilingSchemeName <- getAttributeOf "tilesets" (tilesets v) "profile" ;;

  let flipXY := flipXY_of tilingSchemeName in

  scheme <- read _tilingScheme ;;
  when_ (negb (defined scheme))
    (if (Attr_is tilingSchemeName "geodetic" || Attr_is tilingSchemeName "global-geodetic")%bool then
       assign (set_tilingScheme (Some (GeographicTilingScheme (ellipsoid options))))
     else if (Attr_is tilingSchemeName "mercator" || Attr_is tilingSchemeName "global-mercator")%bool then
       assign (set_tilingScheme (Some (WebMercatorTilingScheme (ellipsoid options))))
     else
       let message := unsupportedProfileMessage (url options) tilingSchemeName in
       modify (fun c => mkClosure (that c) (Some (handleError (metadataError c) message))) ;;
       assign (fun p => set_readyPromise (reject message (_readyPromise p)) p) ;;
       return_) ;;

  tilingScheme <- read _tilingScheme ;;

  (* rectangle handling *)
  rect <- read _rectangle ;;
  when_ (negb (defined rect)) (deriveRectangle flipXY (bbox v)) ;;

  (* The rectangle must not be outside the bounds allowed by the tiling scheme. *)
  rect <- read _rectangle ;;
  r <- deref "that._rectangle" rect ;;
  ts <- deref "tilingScheme" tilingScheme ;;
  assign (set_rectangle (Some (clampToScheme (TilingScheme.rectangle ts) r))) ;;

  (* Check the number of tiles at the minimum level. *)
  rect <- read _rectangle ;;
  r <- deref "that._rectangle" rect ;;
  level <- read _minimumLevel ;;
  let swTile := TilingScheme.positionToTileXY ts (Rectangle.southwest r) (ToNumber level) in
  let neTile := TilingScheme.positionToTileXY ts (Rectangle.northeast r) (ToNumber level) in
  ne <- deref "neTile" neTile ;;
  sw <- deref "swTile" swTile ;;
  when_ (Num_gtb (tileCount sw ne) (Int 4))
    (assign (set_minimumLevel (Some (Int 0)))) ;;

  assign (set_tilingScheme tilingScheme) ;;
  assign (set_ready true) ;;
  assign (fun p => set_readyPromise (resolve true (_readyPromise p)) p).

Definition metadataFailure (options : Options) : M Closure unit :=
  (* Can't load XML, still allow options and defaults *)
  assign (set_fileExtension (Some (Some (defaultValue (fileExtension options) "png")))) ;;
  assign (set_tileWidth (Some (defaultValue (tileWidth options) (Int 256)))) ;;
  assign (set_tileHeight (Some (defaultValue (tileHeight options) (Int 256)))) ;;
  assign (set_minimumLevel (Some (defaultValue (minimumLevel options) (Int 0)))) ;;
  assign (set_maximumLevel (maximumLevel options)) ;;
  assign (set_tilingScheme
            (Some (match tilingScheme options with
                   | Some ts => ts
                   | None => WebMercatorTilingScheme (ellipsoid options)
                   end))) ;;
  scheme <- read _tilingScheme ;;
  ts <- deref "that._tilingScheme" scheme ;;
  assign (set_rectangle (Some (defaultValue (rectangle options) (TilingScheme.rectangle ts)))) ;;
  assign (set_ready true) ;;
  assign (fun p => set_readyPromise (resolve true (_readyPromise p)) p).

(** What the request for [tilemapresource.xml] came back with. *)
Inductive Response : Type :=
| Loaded (xml : Document)
| Failed.

(** [requestMetadata]: the promise calls one of the two callbacks. *)
Definition requestMetadata (options : Options) (response : Response) : M Closure unit :=
  match response with
  | Loaded xml => call (metadataSuccess options xml)
  | Failed => call (metadataFailure options)
  end.

(** The provider once the metadata request has settled. *)
Definition settled (options : Options) (response : Response) : Provider :=
  that (snd (requestMetadata options response (TileMapServiceImageryProvider options))).

(** [buildImageUrl] reads the provider and writes nothing; it ends with
    the URL, or with the [TypeError] of a provider that has no tiling
    scheme yet. *)
Definition buildImageUrl (imageryProvider : Provider) (x y level : Num)
  : Completion string :=
  match _tilingScheme imageryProvider with
  | None => Throw (TypeError "imageryProvider._tilingScheme")
  | Some ts =>
      let yTiles := TilingScheme.getNumberOfYTilesAtLevel ts level in
      let url := joinUrls (_url imageryProvider)
                   (Num_toString level ++ "/" ++ Num_toString x ++ "/"
                      ++ Num_toString (flippedRow yTiles y) ++ "."
                      ++ Field_toString (_fileExtension imageryProvider)) in
      let proxy := _proxy imageryProvider in
      Normal (match proxy with
              | Some p => getURL p url
              | None => url
              end)
  end.

End TileMapService.

(* ================================================================== *)
(** ** A concrete set of collaborators

    One instance of what the section leaves open, to run the embedding
    on documents: decimal [parseInt] and [parseFloat], a path join, the
    degree-to-radian factor, and two tiling schemes over the usual
    rectangles whose tile index is linear in longitude and latitude, as
    the geographic scheme's is. *)

Module Sample.

Set Warnings "-inexact-float".
Local Open Scope float_scope.

Definition handleError (previous : option string) (message : string) : string :=
  message.

Definition digitOf (c : ascii) : option Z :=
  let n := Z.of_nat (nat_of_ascii c) in
  if ((48 <=? n) && (n <=? 57))%Z%bool then Some (n - 48)%Z else None.

(** The digits [s] starts with: their value and how many there are. *)
Fixpoint leadingDigits (s : string) (value count : Z) : Z * Z * string :=
  match s with
  | String c s' =>
      match digitOf c with
      | Some d => leadingDigits s' (10 * value + d)%Z (count + 1)%Z
      | None => (value, count, s)
      end
  | EmptyString => (value, count, s)
  end.

(** Leading blanks are skipped. *)
Fixpoint trimStart (s : string) : string :=
match s with
| String c s' =>
    if (Ascii.eqb c " " || Ascii.eqb c "009" || Ascii.eqb c "010" || Ascii.eqb c "013")%bool
    then trimStart s' else s
| EmptyString => s
end.

Definition signOf (s : string) : Z * string :=
  match s with
  | String "-" s' => ((-1)%Z, s')
  | String "+" s' => (1%Z, s')
  | _ => (1%Z, s)
  end.

Definition parseInt (a : Attr) : Num :=
  let '(sign, s) := signOf (trimStart (Attr_toString a)) in
  let '(value, count, _) := leadingDigits s 0 0 in
  if (count =? 0)%Z then NaN else Int (sign * value).

Definition ofZ (z : Z) : float :=
  if (z <? 0)%Z then - of_uint63 (Uint63.of_Z (- z)) else of_uint63 (Uint63.of_Z z).

(** Plain decimal literals: digits, then optionally a point and
    digits. *)
Definition parseFloat (a : Attr) : float :=
  let '(sign, s) := signOf (trimStart (Attr_toString a)) in
  let '(whole, n, rest) := leadingDigits s 0 0 in
  let '(all, m, _) :=
    match rest with
    | String "." rest' => leadingDigits rest' whole 0
    | _ => (whole, 0%Z, rest)
    end in
  if ((n + m) =? 0)%Z then nan else ofZ (sign * all) / ofZ (10 ^ m).

Definition endsWithSlash (s : string) : bool :=
  match String.length s with
  | O => false
  | S n => match String.get n s with
           | Some "/"%char => true
           | _ => false
           end
  end.

Definition joinUrls (first second : string) : string :=
  if endsWithSlash first then (first ++ second)%string
  else (first ++ "/" ++ second)%string.

Definition PI : float := 3.141592653589793.
Definition PI_OVER_TWO : float := 1.5707963267948966.
Definition RADIANS_PER_DEGREE : float := 0.017453292519943295.

Definition toRadians (degrees : float) : float := degrees * RADIANS_PER_DEGREE.

(** [f | 0] for a float of moderate size: drop the fraction. *)
Definition truncate (f : float) : Z :=
  match Prim2SF f with
  | S754_finite s m e =>
      let magnitude := if (0 <=? e)%Z then (Zpos m * 2 ^ e)%Z
                       else (Zpos m / 2 ^ (- e))%Z in
      if s then (- magnitude)%Z else magnitude
  | _ => 0%Z
  end.

Definition contains (r : Rectangle.t) (position : Cartographic.t) : bool :=
  ((Rectangle.west r <=? Cartographic.longitude position)
   && (Cartographic.longitude position <=? Rectangle.east r)
   && (Rectangle.south r <=? Cartographic.latitude position)
   && (Cartographic.latitude position <=? Rectangle.north r))%bool.

(** [tiles << level], for the levels a pyramid has. *)
Definition tilesAtLevel (tiles : Z) (level : Num) : Z :=
  match level with
  | Int l => if ((0 <=? l) && (l <=? 30))%Z%bool then (tiles * 2 ^ l)%Z else tiles
  | NaN => tiles
  end.

(** The tile of a position: [undefined] outside the rectangle, else the
    column and row counted from the northwest corner. *)
Definition positionToTileXY (r : Rectangle.t) (xTiles0 yTiles0 : Z)
           (position : Cartographic.t) (level : Num) : option TileXY.t :=
  if negb (contains r position) then None
  else
    let xTiles := tilesAtLevel xTiles0 level in
    let yTiles := tilesAtLevel yTiles0 level in
    let xTileWidth := (Rectangle.east r - Rectangle.west r) / ofZ xTiles in
    let yTileHeight := (Rectangle.north r - Rectangle.south r) / ofZ yTiles in
    let xTileCoordinate :=
      truncate ((Cartographic.longitude position - Rectangle.west r) / xTileWidth) in
    let yTileCoordinate :=
      truncate ((Rectangle.north r - Cartographic.latitude position) / yTileHeight) in
    Some (TileXY.new
            (Int (if (xTiles <=? xTileCoordinate)%Z then (xTiles - 1)%Z else xTileCoordinate))
            (Int (if (yTiles <=? yTileCoordinate)%Z then (yTiles - 1)%Z else yTileCoordinate))).

Definition geographicRectangle : Rectangle.t :=
  Rectangle.new (- PI) (- PI_OVER_TWO) PI PI_OVER_TWO.

(** The geographic projection: metres along the equator to radians. *)
Definition geographicMethods (e : option unit) : TilingScheme.methods :=
  TilingScheme.Methods geographicRectangle
    (fun c => Cartographic.new (Cartesian2.x c / 6378137.0) (Cartesian2.y c / 6378137.0) 0)
    (positionToTileXY geographicRectangle 2 1)
    (fun level => Int (tilesAtLevel 1 level)).

Definition webMercatorRectangle : Rectangle.t :=
  Rectangle.new (- PI) (- 1.4844222297453322) PI 1.4844222297453322.

(** A stand-in for the Mercator scheme: its rectangle and tile counts,
    with rows and the inverse projection taken linear in latitude. *)
Definition webMercatorMethods (e : option unit) : TilingScheme.methods :=
  TilingScheme.Methods webMercatorRectangle
    (fun c => Cartographic.new (Cartesian2.x c / 6378137.0) (Cartesian2.y c / 6378137.0) 0)
    (positionToTileXY webMercatorRectangle 1 1)
    (fun level => Int (tilesAtLevel 1 level)).

Definition imports : Imports :=
  Build_Imports unit string parseInt parseFloat joinUrls toRadians
    handleError geographicMethods webMercatorMethods.

(** Options that give only the URL. *)
Definition onlyUrl (u : string) : @Options imports :=
  mkOptions u None None None None None None None None None.

Definition element (name : string) (attrs : list (string * string)) (children : list Node)
  : Node := mkNode name attrs children "".

(** The nodes of a [tilemapresource.xml] as gdal2tiles writes one. *)
Definition boundingBox (minx miny maxx maxy : string) : Node :=
element "BoundingBox"
  [("minx", minx); ("miny", miny); ("maxx", maxx); ("maxy", maxy)]%string [].

Definition tileFormat : Node :=
element "TileFormat"
  [("width", "256"); ("height", "256"); ("mime-type", "image/png");
   ("extension", "png")]%string [].

Definition tileSet (order : string) : Node :=
element "TileSet" [("href", order); ("order", order)]%string [].

Definition tileSets (profile : string) (orders : list string) : Node :=
element "TileSets" [("profile", profile)]%string (map tileSet orders).

Definition tileMapRoot (profile : string) (minx miny maxx maxy : string)
         (orders : list string) : Node :=
element "TileMap" [("version", "1.0.0")]%string
  [element "Title" [] [];
   element "SRS" [] [];
   boundingBox minx miny maxx maxy;
   tileFormat;
   tileSets profile orders].

Definition tileMap (profile : string) (minx miny maxx maxy : string)
         (orders : list string) : Document :=
mkDocument [tileMapRoot profile minx miny maxx maxy orders].

Definition rootWithoutTileFormat (profile : string) (minx miny maxx maxy : string)
         (orders : list string) : Node :=
element "TileMap" [("version", "1.0.0")]%string
  [element "Title" [] [];
   element "SRS" [] [];
   boundingBox minx miny maxx maxy;
   tileSets profile orders].

(** The same document without its [TileFormat] element. *)
Definition withoutTileFormat (profile : string) (minx miny maxx maxy : string)
         (orders : list string) : Document :=
mkDocument [rootWithoutTileFormat profile minx miny maxx maxy orders].

(** Degrees from 10 to 30 and from 20 to 40, written by a tool that swaps
  the axes. *)
Definition mercatorDocument : Document :=
tileMap "mercator" "10" "20" "30" "40" ["0"; "1"; "2"]%string.

(** The same numbers as projected metres. *)
Definition globalMercatorDocument : Document :=
tileMap "global-mercator" "10" "20" "30" "40" ["0"; "1"; "2"]%string.

(** The whole globe, levels 0 to 3. *)
Definition worldDocument : Document :=
tileMap "global-geodetic" "-180" "-90" "180" "90" ["0"; "1"; "2"; "3"]%string.

(** From level 1 on, the hemisphere west of 1 degree west: two columns
  and two rows of level 1. *)
Definition fourTilesDocument : Document :=
tileMap "global-geodetic" "-180" "-90" "-1" "90" ["1"; "2"]%string.

(** One degree further east: three columns. *)
Definition sixTilesDocument : Document :=
tileMap "global-geodetic" "-180" "-90" "1" "90" ["1"; "2"]%string.

Definition unknownProfileDocument : Document :=
tileMap "unknown-value" "-180" "-90" "180" "90" ["0"; "1"]%string.

Definition unknownProfileWithoutTileFormat : Document :=
withoutTileFormat "unknown-value" "-180" "-90" "180" "90" ["0"; "1"]%string.

(** Profile [unknown-value], a tile format, and a [TileSets] element
    with no tile set in it. *)
Definition withoutTileSet : Document :=
  mkDocument
    [element "TileMap" [("version", "1.0.0")]%string
       [boundingBox "-180" "-90" "180" "90"; tileFormat; tileSets "unknown-value" []]].

(** Profile [unknown-value] and no bounding box. *)
Definition withoutBoundingBox : Document :=
  mkDocument
    [element "TileMap" [("version", "1.0.0")]%string
       [tileFormat; tileSets "unknown-value" ["0"; "1"]%string]].

(** Profile [unknown-value] and a bounding box without its attributes:
    the corners are not numbers, and no tile holds them. *)
Definition emptyBoundingBox : Document :=
  mkDocument
    [element "TileMap" [("version", "1.0.0")]%string
       [element "BoundingBox" [] []; tileFormat;
        tileSets "unknown-value" ["0"; "1"]%string]].

(** Every option but the tiling scheme, the rectangle larger than the
  globe and the minimum level 3. *)
Definition everyOverride : @Options imports :=
mkOptions "tiles" None (Some "jpg"%string) (Some (Int 512)) (Some (Int 512))
  (Some (Int 3)) (Some (Int 5))
  (Some (Rectangle.new (-4) (-2) 4 2)) None None.

(** A rectangle across the date line: its west is east of its east. *)
Definition acrossDateLine : @Options imports :=
mkOptions "tiles" None None None None None None
  (Some (Rectangle.new 3 (-1) (-3) 1)) None None.

(** A tiling scheme from the caller. *)
Definition withScheme : @Options imports :=
mkOptions "tiles" None None None None None None None
  (Some (@GeographicTilingScheme imports None)) None.

End Sample.



(* ================================================================== *)
(** ** What a run of [metadataSuccess] amounts to

    The two ways [metadataSuccess] ends without an exception, as
    relations between the input and the provider it leaves; they are
    proved below to be exactly what the function computes on a freshly
    constructed provider. *)

Section Resolution.

Context {imports : Imports}.

(** The scheme in [that._tilingScheme] after the profile has been
    looked at; [None] is the unsupported profile. *)
Definition selectedScheme (options : Options) (tilingSchemeName : Attr)
  : option TilingScheme.t :=
  match tilingScheme options with
  | Some ts => Some ts
  | None =>
      if (Attr_is tilingSchemeName "geodetic" || Attr_is tilingSchemeName "global-geodetic")%bool
      then Some (GeographicTilingScheme (ellipsoid options))
      else if (Attr_is tilingSchemeName "mercator" || Attr_is tilingSchemeName "global-mercator")%bool
      then Some (WebMercatorTilingScheme (ellipsoid options))
      else None
  end.

(** The profiles that name a scheme. *)
Definition supportedProfile (tilingSchemeName : Attr) : bool :=
  (Attr_is tilingSchemeName "geodetic" || Attr_is tilingSchemeName "global-geodetic"
   || Attr_is tilingSchemeName "mercator" || Attr_is tilingSchemeName "global-mercator")%bool.

(** The rectangle of a bounding box node, read under the scheme [ts]. *)
Definition bboxRectangle (flipXY : bool) (ts : TilingScheme.t) (b : Node) : Rectangle.t :=
  let minx := parseFloat (getAttribute b "minx") in
  let miny := parseFloat (getAttribute b "miny") in
  let maxx := parseFloat (getAttribute b "maxx") in
  let maxy := parseFloat (getAttribute b "maxy") in
  if flipXY then
    Rectangle.new (toRadians miny) (toRadians minx) (toRadians maxy) (toRadians maxx)
  else if instanceofGeographicTilingScheme (Some ts) then
    Rectangle.new (toRadians minx) (toRadians miny) (toRadians maxx) (toRadians maxy)
  else
    Rectangle.new
      (Cartographic.longitude (TilingScheme.unproject ts (Cartesian2.new minx miny)))
      (Cartographic.latitude (TilingScheme.unproject ts (Cartesian2.new minx miny)))
      (Cartographic.longitude (TilingScheme.unproject ts (Cartesian2.new maxx maxy)))
      (Cartographic.latitude (TilingScheme.unproject ts (Cartesian2.new maxx maxy))).

(** The rectangle before the clamp: the one of [options], else the one
    of the bounding box, if the document has that node. *)
Definition unclampedRectangle (options : Options) (flipXY : bool)
           (ts : TilingScheme.t) (bbox : option Node) : option Rectangle.t :=
  match rectangle options with
  | Some r => Some r
  | None => option_map (bboxRectangle flipXY ts) bbox
  end.

(** The minimum and maximum level before the tile count is looked at. *)
Definition firstLevel (options : Options) (first : Node) : Num :=
  defaultValue (minimumLevel options) (parseInt (getAttribute first "order")).

Definition lastLevel (options : Options) (last : Node) : Num :=
  defaultValue (maximumLevel options) (parseInt (getAttribute last "order")).

(** [resolves options xml p]: the document has a [format] node [f], a
    [tilesets] node [tsn] and tile sets from [first] to [last]; the
    profile or [options] gives the scheme [ts]; [r0] is the rectangle
    before the clamp; the scheme places both corners of the clamped
    rectangle in tiles [sw] and [ne]; and [p] is the ready provider. *)
Inductive resolves (options : Options) (xml : Document) : Provider -> Prop :=
| Resolves (root f first last tsn : Node) (ts : TilingScheme.t)
           (r0 : Rectangle.t) (sw ne : TileXY.t) :
    item (doc_childNodes xml) 0 = Some root ->
    format (scanNodes (childNodes root)) = Some f ->
    item (tilesetsList (scanNodes (childNodes root))) 0 = Some first ->
    item (tilesetsList (scanNodes (childNodes root)))
         (Z.of_nat (List.length (tilesetsList (scanNodes (childNodes root)))) - 1)
    = Some last ->
    tilesets (scanNodes (childNodes root)) = Some tsn ->
    selectedScheme options (getAttribute tsn "profile") = Some ts ->
    unclampedRectangle options (flipXY_of (getAttribute tsn "profile")) ts
                       (bbox (scanNodes (childNodes root))) = Some r0 ->
    TilingScheme.positionToTileXY ts
      (Rectangle.southwest (clampToScheme (TilingScheme.rectangle ts) r0))
      (firstLevel options first) = Some sw ->
    TilingScheme.positionToTileXY ts
      (Rectangle.northeast (clampToScheme (TilingScheme.rectangle ts) r0))
      (firstLevel options first) = Some ne ->
    resolves options xml
      (mkProvider (url options) true (Resolved true) (proxy options)
         (Some (defaultValue (option_map Some (fileExtension options))
                             (getAttribute f "extension")))
         (Some (defaultValue (tileWidth options) (parseInt (getAttribute f "width"))))
         (Some (defaultValue (tileHeight options) (parseInt (getAttribute f "height"))))
         (Some (if Num_gtb (tileCount sw ne) (Int 4) then Int 0
                else firstLevel options first))
         (Some (lastLevel options last))
         (Some (clampToScheme (TilingScheme.rectangle ts) r0))
         (Some ts)).

(** [rejects options xml p message]: the scalars were read, [options]
    names no tiling scheme and the profile is none of the four; [p] is
    the provider left behind, not ready, its promise rejected with
    [message]. *)
Inductive rejects (options : Options) (xml : Document) : Provider -> string -> Prop :=
| Rejects (root f first last tsn : Node) :
    item (doc_childNodes xml) 0 = Some root ->
    format (scanNodes (childNodes root)) = Some f ->
    item (tilesetsList (scanNodes (childNodes root))) 0 = Some first ->
    item (tilesetsList (scanNodes (childNodes root)))
         (Z.of_nat (List.length (tilesetsList (scanNodes (childNodes root)))) - 1)
    = Some last ->
    tilesets (scanNodes (childNodes root)) = Some tsn ->
    selectedScheme options (getAttribute tsn "profile") = None ->
    rejects options xml
      (mkProvider (url options) false
         (Rejected (unsupportedProfileMessage (url options) (getAttribute tsn "profile")))
         (proxy options)
         (Some (defaultValue (option_map Some (fileExtension options))
                             (getAttribute f "extension")))
         (Some (defaultValue (tileWidth options) (parseInt (getAttribute f "width"))))
         (Some (defaultValue (tileHeight options) (parseInt (getAttribute f "height"))))
         (Some (firstLevel options first))
         (Some (lastLevel options last))
         (rectangle options)
         None)
      (unsupportedProfileMessage (url options) (getAttribute tsn "profile")).

End Resolution.

(* ================================================================== *)
(** ** The rest of the provider

    The getters of the prototype and [requestImage], as a debug build
    has them, and the vocabulary for the loop over the document. *)

(** How the outer loop classifies a node: the first pattern of the
    chain that its name matches. *)
Definition isFormatNode (n : Node) : bool := test tileFormatRegex (nodeName n).

Definition isTileSetsNode (n : Node) : bool :=
  (negb (test tileFormatRegex (nodeName n)) && test tileSetsRegex (nodeName n))%bool.

Definition isBoundingBoxNode (n : Node) : bool :=
  (negb (test tileFormatRegex (nodeName n)) && negb (test tileSetsRegex (nodeName n))
   && test bboxRegex (nodeName n))%bool.

Definition isTileSetNode (n : Node) : bool := test tileSetRegex (nodeName n).

Inductive DeveloperError : Type :=
| mkDeveloperError (message : string).

(** The guard of a debug build: the getter named [name] throws until
    the provider is ready. *)
Definition notReady (name : string) : DeveloperError :=
  mkDeveloperError (name ++ " must not be called before the imagery provider is ready.").

Definition get_url (this : Provider) : string := _url this.

Definition get_proxy (this : Provider) : option Proxy := _proxy this.

Definition get_tileWidth (this : Provider) : DeveloperError + option Num :=
  if negb (_ready this) then inl (notReady "tileWidth") else inr (_tileWidth this).

Definition get_tileHeight (this : Provider) : DeveloperError + option Num :=
  if negb (_ready this) then inl (notReady "tileHeight") else inr (_tileHeight this).

Definition get_maximumLevel (this : Provider) : DeveloperError + option Num :=
  if negb (_ready this) then inl (notReady "maximumLevel") else inr (_maximumLevel this).

Definition get_minimumLevel (this : Provider) : DeveloperError + option Num :=
  if negb (_ready this) then inl (notReady "minimumLevel") else inr (_minimumLevel this).

Definition get_tilingScheme (this : Provider) : DeveloperError + option TilingScheme.t :=
  if negb (_ready this) then inl (notReady "tilingScheme") else inr (_tilingScheme this).

Definition get_rectangle (this : Provider) : DeveloperError + option Rectangle.t :=
  if negb (_ready this) then inl (notReady "rectangle") else inr (_rectangle this).

Definition get_ready (this : Provider) : bool := _ready this.

Definition get_readyPromise (this : Provider) : Deferred := _readyPromise this.

Definition get_hasAlphaChannel (this : Provider) : bool := true.

(** What [requestImage] can throw: the error of the guard, or whatever
    [buildImageUrl] throws. *)
Inductive Raised : Type :=
| Developer (e : DeveloperError)
| Engine (e : Exception).

Section RequestImage.

Context {imports : Imports}.

(** [ImageryProvider.loadImage(this, url, distance)], an import. *)
Variable Image : Type.
Variable loadImage : Provider -> string -> option float -> Image.

(** [buildImageUrl] ends with a value or an exception; a bare [return]
    does not occur in it, and is given the exception's side here. *)
Definition requestImage (this : Provider) (x y level : Num) (distance : option float)
  : Raised + Image :=
  if negb (_ready this) then inl (Developer (notReady "requestImage"))
  else
    match buildImageUrl this x y level with
    | Normal url => inr (loadImage this url distance)
    | Throw e => inl (Engine e)
    | Return => inl (Engine (TypeError "url"))
    end.

End RequestImage.

(** ASCII lower case of a whole string. *)
Fixpoint lowerCase (s : string) : string :=
  match s with
  | EmptyString => EmptyString
  | String c s' => String (lower c) (lowerCase s')
  end.

(** [occurs c s]: the character [c] is somewhere in [s]. *)
Fixpoint occurs (c : ascii) (s : string) : bool :=
  match s with
  | EmptyString => false
  | String a s' => (Ascii.eqb a c || occurs c s')%bool
  end.

(** Options with a tiling scheme and a rectangle. *)
Definition schemeAndRectangle : @Options Sample.imports :=
  mkOptions "tiles" None None None None None None
    (Some (Rectangle.new (-1) (-1) 1 1)%float)
    (Some (@GeographicTilingScheme Sample.imports None)) None.

(* ================================================================== *)
(** * Properties *)

(** ** Order on binary64 values *)

Lemma SFcompare_Lt_swap (a b : spec_float) :
  SFcompare a b = Some Lt -> SFcompare b a = Some Gt.
Proof.
  unfold SFcompare.
  destruct a as [sa|sa| |sa ma ea], b as [sb|sb| |sb mb eb]; intros H;
    try discriminate H;
    try (destruct sa); try (destruct sb); try discriminate H; try reflexivity;
    revert H;
    change (PosDef.Pos.compare_cont Eq mb ma) with (Pos.compare mb ma);
    change (PosDef.Pos.compare_cont Eq ma mb) with (Pos.compare ma mb);
    rewrite (Z.compare_antisym ea eb), (Pos.compare_antisym ma mb);
    destruct (Z.compare ea eb), (Pos.compare ma mb); simpl;
    try discriminate; reflexivity.
Qed.

Lemma ltb_irrefl (a : float) : (a <? a)%float = false.
Proof.
  destruct (a <? a)%float eqn:E; [|reflexivity].
  rewrite ltb_spec in E. unfold SFltb in E.
  destruct (SFcompare (Prim2SF a) (Prim2SF a)) as [[| |]|] eqn:C; try discriminate.
  pose proof (SFcompare_Lt_swap _ _ C) as C'. congruence.
Qed.

Lemma ltb_asym (a b : float) : (a <? b)%float = true -> (b <? a)%float = false.
Proof.
  rewrite !ltb_spec. unfold SFltb.
  destruct (SFcompare (Prim2SF a) (Prim2SF b)) as [[| |]|] eqn:C; try discriminate.
  intros _. rewrite (SFcompare_Lt_swap _ _ C). reflexivity.
Qed.

(* ================================================================== *)
(** ** The clamp, edge by edge *)

Section Clamp.

Local Open Scope float_scope.

Variables bounds r : Rectangle.t.

Lemma clampToScheme_west :
  Rectangle.west (clampToScheme bounds r)
  = if Rectangle.west r <? Rectangle.west bounds then Rectangle.west bounds
    else Rectangle.west r.
Proof.
  unfold clampToScheme.
  destruct (Rectangle.west r <? Rectangle.west bounds);
    repeat match goal with |- context [if ?c then _ else _] => destruct c end;
    reflexivity.
Qed.

Lemma clampToScheme_east :
  Rectangle.east (clampToScheme bounds r)
  = if Rectangle.east bounds <? Rectangle.east r then Rectangle.east bounds
    else Rectangle.east r.
Proof.
  unfold clampToScheme.
  destruct (Rectangle.west r <? Rectangle.west bounds); cbn;
    destruct (Rectangle.east bounds <? Rectangle.east r); cbn;
    repeat match goal with |- context [if ?c then _ else _] => destruct c; cbn end;
    reflexivity.
Qed.

Lemma clampToScheme_south :
  Rectangle.south (clampToScheme bounds r)
  = if Rectangle.south r <? Rectangle.south bounds then Rectangle.south bounds
    else Rectangle.south r.
Proof.
  unfold clampToScheme.
  destruct (Rectangle.west r <? Rectangle.west bounds); cbn;
    destruct (Rectangle.east bounds <? Rectangle.east r); cbn;
    destruct (Rectangle.south r <? Rectangle.south bounds); cbn;
    repeat match goal with |- context [if ?c then _ else _] => destruct c; cbn end;
    reflexivity.
Qed.

Lemma clampToScheme_north :
  Rectangle.north (clampToScheme bounds r)
  = if Rectangle.north bounds <? Rectangle.north r then Rectangle.north bounds
    else Rectangle.north r.
Proof.
  unfold clampToScheme.
  destruct (Rectangle.west r <? Rectangle.west bounds); cbn;
    destruct (Rectangle.east bounds <? Rectangle.east r); cbn;
    destruct (Rectangle.south r <? Rectangle.south bounds); cbn;
    destruct (Rectangle.north bounds <? Rectangle.north r); cbn;
    reflexivity.
Qed.

(** No edge is left beyond the bound it is compared with. *)
Lemma clampToScheme_not_outside :
  (Rectangle.west (clampToScheme bounds r) <? Rectangle.west bounds) = false
  /\ (Rectangle.east bounds <? Rectangle.east (clampToScheme bounds r)) = false
  /\ (Rectangle.south (clampToScheme bounds r) <? Rectangle.south bounds) = false
  /\ (Rectangle.north bounds <? Rectangle.north (clampToScheme bounds r)) = false.
Proof.
  rewrite clampToScheme_west, clampToScheme_east, clampToScheme_south,
    clampToScheme_north.
  repeat split;
    match goal with |- context [if ?c then _ else _] => destruct c eqn:E end;
    auto using ltb_irrefl.
Qed.

(** West and south only go up, east and north only go down. *)
Lemma clampToScheme_tightens :
  (Rectangle.west (clampToScheme bounds r) <? Rectangle.west r) = false
  /\ (Rectangle.east r <? Rectangle.east (clampToScheme bounds r)) = false
  /\ (Rectangle.south (clampToScheme bounds r) <? Rectangle.south r) = false
  /\ (Rectangle.north r <? Rectangle.north (clampToScheme bounds r)) = false.
Proof.
  rewrite clampToScheme_west, clampToScheme_east, clampToScheme_south,
    clampToScheme_north.
  repeat split;
    match goal with |- context [if ?c then _ else _] => destruct c eqn:E end;
    auto using ltb_irrefl, ltb_asym.
Qed.

(** A rectangle that is ordered and meets the bounds stays ordered. *)
Lemma clampToScheme_ordered :
  (Rectangle.west r <=? Rectangle.east r) = true ->
  (Rectangle.west r <=? Rectangle.east bounds) = true ->
  (Rectangle.west bounds <=? Rectangle.east r) = true ->
  (Rectangle.west bounds <=? Rectangle.east bounds) = true ->
  (Rectangle.west (clampToScheme bounds r) <=? Rectangle.east (clampToScheme bounds r)) = true.
Proof.
  intros H1 H2 H3 H4.
  rewrite clampToScheme_west, clampToScheme_east.
  destruct (Rectangle.west r <? Rectangle.west bounds),
    (Rectangle.east bounds <? Rectangle.east r); assumption.
Qed.

Lemma clampToScheme_ordered_latitude :
  (Rectangle.south r <=? Rectangle.north r) = true ->
  (Rectangle.south r <=? Rectangle.north bounds) = true ->
  (Rectangle.south bounds <=? Rectangle.north r) = true ->
  (Rectangle.south bounds <=? Rectangle.north bounds) = true ->
  (Rectangle.south (clampToScheme bounds r) <=? Rectangle.north (clampToScheme bounds r)) = true.
Proof.
  intros H1 H2 H3 H4.
  rewrite clampToScheme_south, clampToScheme_north.
  destruct (Rectangle.south r <? Rectangle.south bounds),
    (Rectangle.north bounds <? Rectangle.north r); assumption.
Qed.

End Clamp.

(* ================================================================== *)
(** ** Running [metadataSuccess] *)

Ltac step :=
  unfold bind, deref, ret, read, assign, modify, get, getAttributeOf, when_,
    throw, return_; cbn.

Section Run.

Context {imports : Imports}.

Arguments item : simpl never.
Arguments scanNodes : simpl never.
Arguments clampToScheme : simpl never.
Arguments tileCount : simpl never.
Arguments flipXY_of : simpl never.
Arguments Num_gtb : simpl never.
Arguments Attr_is : simpl never.
Arguments defaultValue {A} !a b /.
Arguments instanceofGeographicTilingScheme : simpl never.

Lemma deriveRectangle_node flipXY b ts (s : Closure) :
  _tilingScheme (that s) = Some ts ->
  deriveRectangle flipXY (Some b) s
  = (Normal tt,
     mkClosure (set_rectangle (Some (bboxRectangle flipXY ts b)) (that s))
               (metadataError s)).
Proof.
  intros Hts. unfold deriveRectangle, bboxRectangle.
  destruct flipXY; step; [reflexivity|].
  rewrite Hts.
  destruct (instanceofGeographicTilingScheme (Some ts)); reflexivity.
Qed.

Lemma deriveRectangle_undefined flipXY (s : Closure) :
  deriveRectangle flipXY None s = (Throw (TypeError "bbox"), s).
Proof. destruct flipXY; reflexivity. Qed.

(** From the rectangle handling to the end, once the scheme is known. *)
Ltac rest options root Hr0 Hsw Hne :=
  let r := fresh "r" in
  let b := fresh "b" in
  destruct (rectangle options) as [r|]; cbn;
  [ injection Hr0 as ->
  | destruct (bbox (scanNodes (childNodes root))) as [b|]; [|discriminate Hr0];
    injection Hr0 as <-;
    erewrite deriveRectangle_node by reflexivity; cbn ];
  cbn in Hsw, Hne; rewrite Hsw, Hne; cbn;
  destruct (Num_gtb _ _); reflexivity.

Lemma metadataSuccess_resolves options xml p :
  resolves options xml p ->
  metadataSuccess options xml (TileMapServiceImageryProvider options)
  = (Normal tt, mkClosure p None).
Proof.
  intros [root f first last tsn ts r0 sw ne Hroot Hf Hfirst Hlast Htsn Hts Hr0 Hsw Hne].
  unfold metadataSuccess, TileMapServiceImageryProvider.
  step. rewrite Hroot. step. rewrite Hf. step. rewrite Hfirst. step. rewrite Hlast. step.
  rewrite Htsn. step.
  unfold selectedScheme in Hts. unfold unclampedRectangle in Hr0.
  unfold firstLevel in Hsw, Hne. unfold firstLevel, lastLevel.
  destruct (tilingScheme options) as [ts'|] eqn:Hopt; cbn [defined negb].
  - injection Hts as ->. rest options root Hr0 Hsw Hne.
  - destruct (Attr_is (getAttribute tsn "profile") "geodetic"
              || Attr_is (getAttribute tsn "profile") "global-geodetic")%bool.
    + injection Hts as <-. rest options root Hr0 Hsw Hne.
    + destruct (Attr_is (getAttribute tsn "profile") "mercator"
                || Attr_is (getAttribute tsn "profile") "global-mercator")%bool;
        [|discriminate Hts].
      injection Hts as <-. rest options root Hr0 Hsw Hne.
Qed.

Lemma metadataSuccess_rejects options xml p message :
  rejects options xml p message ->
  metadataSuccess options xml (TileMapServiceImageryProvider options)
  = (Return, mkClosure p (Some (handleError None message))).
Proof.
  intros [root f first last tsn Hroot Hf Hfirst Hlast Htsn Hts].
  unfold metadataSuccess, TileMapServiceImageryProvider.
  step. rewrite Hroot. step. rewrite Hf. step. rewrite Hfirst. step. rewrite Hlast. step.
  rewrite Htsn. step.
  unfold selectedScheme in Hts. unfold firstLevel, lastLevel.
  destruct (tilingScheme options) as [ts'|] eqn:Hopt; [discriminate Hts|].
  cbn [defined negb].
  destruct (Attr_is (getAttribute tsn "profile") "geodetic"
            || Attr_is (getAttribute tsn "profile") "global-geodetic")%bool;
    [discriminate Hts|].
  destruct (Attr_is (getAttribute tsn "profile") "mercator"
            || Attr_is (getAttribute tsn "profile") "global-mercator")%bool;
    [discriminate Hts|].
  reflexivity.
Qed.

(** An exception leaves the provider as the constructor made it, apart
    from scalars already assigned: not ready, its promise pending. *)
Ltac thrown :=
  let H := fresh in
  intros H; injection H as <- <-; right; right; eexists;
  split; [reflexivity | split; [reflexivity | split; reflexivity]].

(** The tail of a run whose scheme [ts] is known. *)
Ltac resolved options xml root f first last tsn ts Hroot Hf Hfirst Hlast Htsn Hts :=
  let r := fresh "r" in
  let b := fresh "b" in
  let Hrect := fresh "Hrect" in
  let Hb := fresh "Hb" in
  let sw := fresh "sw" in
  let ne := fresh "ne" in
  let Hsw := fresh "Hsw" in
  let Hne := fresh "Hne" in
  let Hg := fresh "Hg" in
  let R := fresh "R" in
  let H := fresh in
  destruct (rectangle options) as [r|] eqn:Hrect; cbn;
  [ | destruct (bbox (scanNodes (childNodes root))) as [b|] eqn:Hb;
      [ erewrite deriveRectangle_node by reflexivity; cbn
      | rewrite deriveRectangle_undefined; cbn; thrown ] ];
  (match goal with
   | |- context [TilingScheme.positionToTileXY ?m (Rectangle.northeast ?rr) ?l] =>
       destruct (TilingScheme.positionToTileXY m (Rectangle.northeast rr) l)
         as [ne|] eqn:Hne; cbn; [|thrown];
       destruct (TilingScheme.positionToTileXY m (Rectangle.southwest rr) l)
         as [sw|] eqn:Hsw; cbn; [|thrown]
   end);
  destruct (Num_gtb (tileCount sw ne) (Int 4)) eqn:Hg; cbn;
  intros H; injection H as <- <-; left; split; try reflexivity;
  eexists; split; try reflexivity;
  (eassert (R : resolves options xml _);
   [ eapply (Resolves options xml root f first last tsn ts _ sw ne
               Hroot Hf Hfirst Hlast Htsn Hts);
     [ unfold unclampedRectangle; rewrite Hrect; try rewrite Hb; reflexivity
     | exact Hsw | exact Hne ]
   | rewrite Hg in R; exact R ]).

Lemma metadataSuccess_outcome options xml c st :
  metadataSuccess options xml (TileMapServiceImageryProvider options) = (c, st) ->
  (c = Normal tt /\ exists p, st = mkClosure p None /\ resolves options xml p)
  \/ (c = Return
      /\ exists p message,
          st = mkClosure p (Some (handleError None message))
          /\ rejects options xml p message)
  \/ (exists e, c = Throw e
                /\ _ready (that st) = false
                /\ _readyPromise (that st) = Pending
                /\ metadataError st = None).
Proof.
  unfold metadataSuccess, TileMapServiceImageryProvider. step.
  destruct (item (doc_childNodes xml) 0) as [root|] eqn:Hroot; step; [|thrown].
  destruct (format (scanNodes (childNodes root))) as [f|] eqn:Hf; step; [|thrown].
  destruct (item (tilesetsList (scanNodes (childNodes root))) 0)
    as [first|] eqn:Hfirst; step; [|thrown].
  destruct (item (tilesetsList (scanNodes (childNodes root)))
              (Z.of_nat (List.length (tilesetsList (scanNodes (childNodes root)))) - 1))
    as [last|] eqn:Hlast; step; [|thrown].
  destruct (tilesets (scanNodes (childNodes root))) as [tsn|] eqn:Htsn; step; [|thrown].
  destruct (tilingScheme options) as [ts|] eqn:Hopt; cbn [defined negb].
  - assert (Hts : selectedScheme options (getAttribute tsn "profile") = Some ts)
      by (unfold selectedScheme; rewrite Hopt; reflexivity).
    resolved options xml root f first last tsn ts Hroot Hf Hfirst Hlast Htsn Hts.
  - destruct (Attr_is (getAttribute tsn "profile") "geodetic"
              || Attr_is (getAttribute tsn "profile") "global-geodetic")%bool eqn:Hgeo.
    + assert (Hts : selectedScheme options (getAttribute tsn "profile")
                    = Some (GeographicTilingScheme (ellipsoid options)))
        by (unfold selectedScheme; rewrite Hopt, Hgeo; reflexivity).
      resolved options xml root f first last tsn
               (GeographicTilingScheme (ellipsoid options))
               Hroot Hf Hfirst Hlast Htsn Hts.
    + destruct (Attr_is (getAttribute tsn "profile") "mercator"
                || Attr_is (getAttribute tsn "profile") "global-mercator")%bool eqn:Hmerc.
      * assert (Hts : selectedScheme options (getAttribute tsn "profile")
                      = Some (WebMercatorTilingScheme (ellipsoid options)))
          by (unfold selectedScheme; rewrite Hopt, Hgeo, Hmerc; reflexivity).
        resolved options xml root f first last tsn
                 (WebMercatorTilingScheme (ellipsoid options))
                 Hroot Hf Hfirst Hlast Htsn Hts.
      * cbn. intros H. injection H as <- <-. right. left. split; [reflexivity|].
        eexists. eexists. split; [reflexivity|].
        assert (Hts : selectedScheme options (getAttribute tsn "profile") = None)
          by (unfold selectedScheme; rewrite Hopt, Hgeo, Hmerc; reflexivity).
        exact (Rejects options xml root f first last tsn Hroot Hf Hfirst Hlast Htsn Hts).
Qed.

Lemma metadataFailure_run options :
  metadataFailure options (TileMapServiceImageryProvider options)
  = (Normal tt,
     mkClosure
       (mkProvider (url options) true (Resolved true) (proxy options)
          (Some (Some (defaultValue (fileExtension options) "png")))
          (Some (defaultValue (tileWidth options) (Int 256)))
          (Some (defaultValue (tileHeight options) (Int 256)))
          (Some (defaultValue (minimumLevel options) (Int 0)))
          (maximumLevel options)
          (Some (defaultValue (rectangle options)
                   (TilingScheme.rectangle
                      (defaultValue (tilingScheme options)
                         (WebMercatorTilingScheme (ellipsoid options))))))
          (Some (defaultValue (tilingScheme options)
                   (WebMercatorTilingScheme (ellipsoid options)))))
       None).
Proof.
  unfold metadataFailure, TileMapServiceImageryProvider. step.
  destruct (tilingScheme options); reflexivity.
Qed.

(** The provider a loaded document leaves is the one [metadataSuccess]
    leaves, however the call ends. *)
Lemma settled_Loaded options xml :
  settled options (Loaded xml)
  = that (snd (metadataSuccess options xml (TileMapServiceImageryProvider options))).
Proof.
  unfold settled, requestMetadata, call.
  destruct (metadataSuccess options xml (TileMapServiceImageryProvider options))
    as [[a| |e] st]; reflexivity.
Qed.

Lemma resolves_settled options xml p :
  resolves options xml p -> settled options (Loaded xml) = p.
Proof.
  intros R. rewrite settled_Loaded, (metadataSuccess_resolves _ _ _ R). reflexivity.
Qed.

Lemma rejects_not_ready options xml p message :
  rejects options xml p message -> _ready p = false.
Proof. intros []. reflexivity. Qed.

(** A provider that became ready on a loaded document was resolved. *)
Lemma ready_resolves options xml :
  _ready (settled options (Loaded xml)) = true ->
  resolves options xml (settled options (Loaded xml)).
Proof.
  rewrite settled_Loaded.
  destruct (metadataSuccess options xml (TileMapServiceImageryProvider options))
    as [c st] eqn:E.
  destruct (metadataSuccess_outcome _ _ _ _ E)
    as [(_ & p & -> & R) | [(_ & p & m & -> & R) | (e & _ & Hnot & _)]]; cbn.
  - intros _. exact R.
  - rewrite (rejects_not_ready _ _ _ _ R). discriminate.
  - rewrite Hnot. discriminate.
Qed.

Lemma resolves_ready options xml p : resolves options xml p -> _ready p = true.
Proof. intros []. reflexivity. Qed.

(** The scan finds no [format] when no name matches [/tileformat/i]. *)
Lemma visit_format_unchanged v n :
  test tileFormatRegex (nodeName n) = false -> format (visit v n) = format v.
Proof.
  intros H. unfold visit. rewrite H.
  destruct (test tileSetsRegex (nodeName n)); [reflexivity|].
  destruct (test bboxRegex (nodeName n)); [reflexivity|].
  destruct (test srsRegex (nodeName n)); reflexivity.
Qed.

Lemma fold_visit_format_unchanged nodeList :
  forallb (fun n => negb (test tileFormatRegex (nodeName n))) nodeList = true ->
  forall v, format (fold_left visit nodeList v) = format v.
Proof.
  induction nodeList as [|n l IH]; intros H v; [reflexivity|].
  cbn in H. apply andb_prop in H. destruct H as [Hn Hl].
  cbn [fold_left]. rewrite (IH Hl).
  apply visit_format_unchanged. now apply negb_true_iff.
Qed.

Lemma item_last_of_first {A : Type} (l : list A) a :
  item l 0 = Some a ->
  exists b, item l (Z.of_nat (List.length l) - 1) = Some b.
Proof.
  destruct l as [|a' l]; [discriminate|]. intros _.
  unfold item.
  replace (Z.of_nat (List.length (a' :: l)) - 1) with (Z.of_nat (List.length l))
    by (cbn [List.length]; lia).
  destruct (Z.ltb_spec (Z.of_nat (List.length l)) 0) as [H|_]; [lia|].
  rewrite Nat2Z.id.
  destruct (nth_error (a' :: l) (List.length l)) as [b|] eqn:E; [eauto|].
  apply nth_error_None in E. cbn [List.length] in E. lia.
Qed.

Lemma flipXY_of_true tilingSchemeName :
  flipXY_of tilingSchemeName = true
  <-> tilingSchemeName = Some "geodetic" \/ tilingSchemeName = Some "mercator".
Proof.
  unfold flipXY_of, Attr_is.
  destruct tilingSchemeName as [s|].
  - destruct (String.eqb_spec s "geodetic") as [->|Hg]; cbn.
    + split; auto.
    + destruct (String.eqb_spec s "mercator") as [->|Hm]; cbn.
      * split; auto.
      * split; [discriminate|]. intros [[= E]|[= E]]; contradiction.
  - cbn. split; [discriminate|]. intros [E|E]; discriminate.
Qed.

End Run.

(* ================================================================== *)
(** ** Tile addresses *)

Section TileAddress.

Context {imports : Imports}.

Lemma flippedRow_Int (yTiles y : Z) :
  flippedRow (Int yTiles) (Int y) = Int (yTiles - y - 1).
Proof. reflexivity. Qed.

(** A ready provider has the URL and proxy of [options] and a tiling
    scheme. *)
Lemma ready_has_scheme options response :
  _ready (settled options response) = true ->
  _url (settled options response) = url options
  /\ _proxy (settled options response) = proxy options
  /\ exists ts, _tilingScheme (settled options response) = Some ts.
Proof.
  destruct response as [xml|].
  - intros H. destruct (ready_resolves _ _ H). cbn. eauto.
  - intros _. unfold settled, requestMetadata, call.
    rewrite metadataFailure_run. cbn. eauto.
Qed.

(** C1: on every ready provider, [buildImageUrl] joins the base URL with
    [level/x/flippedRow.extension], where [flippedRow] is the row count of
    the level minus the row minus one, and hands the result to the proxy
    if there is one; with four rows, row 0 becomes 3 and row 3 becomes 0,
    and flipping twice over one row count gives the row back. *)
Theorem buildImageUrl_flipped_row_path options response (x y level : Num) :
  _ready (settled options response) = true ->
  exists ts,
    _tilingScheme (settled options response) = Some ts
    /\ buildImageUrl (settled options response) x y level
       = Normal
           (let path :=
              joinUrls (url options)
                (Num_toString level ++ "/" ++ Num_toString x ++ "/"
                   ++ Num_toString
                        (flippedRow (TilingScheme.getNumberOfYTilesAtLevel ts level) y)
                   ++ "."
                   ++ Field_toString (_fileExtension (settled options response))) in
            match proxy options with
            | Some p => getURL p path
            | None => path
            end)
    /\ (forall rowsAtLevel row : Z,
           flippedRow (Int rowsAtLevel) (Int row) = Int (rowsAtLevel - row - 1))
    /\ flippedRow (Int 4) (Int 0) = Int 3
    /\ flippedRow (Int 4) (Int 3) = Int 0
    /\ (forall rowsAtLevel row : Z,
           flippedRow (Int rowsAtLevel) (flippedRow (Int rowsAtLevel) (Int row))
           = Int row).
Proof.
  intros Hready.
  destruct (ready_has_scheme _ _ Hready) as (Hurl & Hproxy & ts & Hts).
  exists ts. split; [exact Hts|]. split.
  - unfold buildImageUrl. rewrite Hts, Hurl, Hproxy. reflexivity.
  - repeat split; intros; rewrite ?flippedRow_Int; try reflexivity.
    f_equal. lia.
Qed.

End TileAddress.

(* ================================================================== *)
(** ** The fallback *)

Section Fallback.

Context {imports : Imports}.

(** C4: when the document cannot be loaded the provider still becomes
    ready; with nothing but the URL, proxy and ellipsoid in [options] it
    has extension png, 256 by 256 tiles, minimum level 0, no maximum
    level, a Web Mercator scheme and that scheme's rectangle; and whatever
    [options] holds, the minimum level is the one of [options] or 0,
    untouched by any tile count. *)
Theorem metadataFailure_defaults :
  (forall options,
      fst (requestMetadata options Failed (TileMapServiceImageryProvider options))
      = Normal tt
      /\ _ready (settled options Failed) = true
      /\ _readyPromise (settled options Failed) = Resolved true)
  /\ (forall u px e,
         settled (mkOptions u px None None None None None None None e) Failed
         = mkProvider u true (Resolved true) px
             (Some (Some "png")) (Some (Int 256)) (Some (Int 256))
             (Some (Int 0)) None
             (Some (TilingScheme.rectangle (WebMercatorTilingScheme e)))
             (Some (WebMercatorTilingScheme e)))
  /\ (forall options,
         _minimumLevel (settled options Failed)
         = Some (defaultValue (minimumLevel options) (Int 0))).
Proof.
  repeat split; intros; unfold settled, requestMetadata, call;
    rewrite metadataFailure_run; reflexivity.
Qed.

End Fallback.

(* ================================================================== *)
(** ** A document without a tile format *)

Section MissingFormat.

Context {imports : Imports}.

(** C9: if no child of the root has a name matching [/tileformat/i],
    [metadataSuccess] throws the [TypeError] of reading an attribute of
    the undefined [format], whatever [options] holds; the provider stays
    as constructed, not ready, its promise pending. *)
Theorem metadataSuccess_without_tileformat options xml root rest :
  doc_childNodes xml = root :: rest ->
  forallb (fun n => negb (test tileFormatRegex (nodeName n))) (childNodes root) = true ->
  metadataSuccess options xml (TileMapServiceImageryProvider options)
  = (Throw (TypeError "format"), TileMapServiceImageryProvider options)
  /\ _ready (settled options (Loaded xml)) = false
  /\ _readyPromise (settled options (Loaded xml)) = Pending.
Proof.
  intros Hroot Hnone.
  assert (E : metadataSuccess options xml (TileMapServiceImageryProvider options)
              = (Throw (TypeError "format"), TileMapServiceImageryProvider options)).
  { unfold metadataSuccess. step. unfold item. rewrite Hroot. cbn.
    unfold scanNodes. rewrite (fold_visit_format_unchanged _ Hnone). reflexivity. }
  split; [exact E|]. rewrite settled_Loaded, E. split; reflexivity.
Qed.

End MissingFormat.

(* ================================================================== *)
(** ** The resolved configuration *)

Section Resolved.

Context {imports : Imports}.

Local Open Scope float_scope.

Lemma tileCount_Int (a b c d : Z) :
  tileCount (TileXY.new (Int a) (Int b)) (TileXY.new (Int c) (Int d))
  = Int ((Z.abs (c - a) + 1) * (Z.abs (d - b) + 1)).
Proof. reflexivity. Qed.

Lemma Num_gtb_4 (n : Num) : n = Int 4 -> Num_gtb n (Int 4) = false.
Proof. intros ->. reflexivity. Qed.

(** C5: on every resolved configuration, with [sw] and [ne] the tiles of
    the southwest and northeast corners of the rectangle at the minimum
    level read before: on integer tile indices the tile count is
    [(|ne.x - sw.x| + 1) * (|ne.y - sw.y| + 1)]; the minimum level is 0
    when the count is greater than 4 and is the level read before when
    the count is at most 4, exactly 4 included, or is not a number (some
    index is not); the level is changed only by a count greater than 4. *)
Theorem minimumLevel_relaxed_above_four options xml :
  _ready (settled options (Loaded xml)) = true ->
  exists root first ts r sw ne,
    item (doc_childNodes xml) 0 = Some root
    /\ item (tilesetsList (scanNodes (childNodes root))) 0 = Some first
    /\ _tilingScheme (settled options (Loaded xml)) = Some ts
    /\ _rectangle (settled options (Loaded xml)) = Some r
    /\ let level := defaultValue (minimumLevel options)
                                 (parseInt (getAttribute first "order")) in
       TilingScheme.positionToTileXY ts (Rectangle.southwest r) level = Some sw
       /\ TilingScheme.positionToTileXY ts (Rectangle.northeast r) level = Some ne
       /\ (forall a b c d : Z,
              sw = TileXY.new (Int a) (Int b) -> ne = TileXY.new (Int c) (Int d) ->
              let n := ((Z.abs (c - a) + 1) * (Z.abs (d - b) + 1))%Z in
              tileCount sw ne = Int n
              /\ ((4 < n)%Z -> _minimumLevel (settled options (Loaded xml)) = Some (Int 0))
              /\ ((n <= 4)%Z -> _minimumLevel (settled options (Loaded xml)) = Some level))
       /\ (tileCount sw ne = NaN
           <-> TileXY.x sw = NaN \/ TileXY.y sw = NaN
               \/ TileXY.x ne = NaN \/ TileXY.y ne = NaN)
       /\ (forall n : Z, tileCount sw ne = Int n -> (4 < n)%Z ->
           _minimumLevel (settled options (Loaded xml)) = Some (Int 0))
       /\ (forall n : Z, tileCount sw ne = Int n -> (n <= 4)%Z ->
           _minimumLevel (settled options (Loaded xml)) = Some level)
       /\ (tileCount sw ne = NaN ->
           _minimumLevel (settled options (Loaded xml)) = Some level)
       /\ (tileCount sw ne = Int 4 ->
           _minimumLevel (settled options (Loaded xml)) = Some level)
       /\ (_minimumLevel (settled options (Loaded xml)) <> Some level ->
           _minimumLevel (settled options (Loaded xml)) = Some (Int 0)
           /\ exists n : Z, tileCount sw ne = Int n /\ (4 < n)%Z).
Proof.
  intros Hready.
  destruct (ready_resolves _ _ Hready)
    as [root f first last tsn ts r0 sw ne Hroot Hf Hfirst Hlast Htsn Hts Hr0 Hsw Hne].
  exists root, first, ts, (clampToScheme (TilingScheme.rectangle ts) r0), sw, ne.
  cbn [_tilingScheme _rectangle _minimumLevel]. unfold firstLevel in *.
  do 4 (split; [assumption || reflexivity|]).
  cbv zeta.
  do 2 (split; [assumption|]).
  assert (Hgt : forall n : Z, tileCount sw ne = Int n ->
                Num_gtb (tileCount sw ne) (Int 4) = (4 <? n)%Z).
  { intros n ->. reflexivity. }
  assert (Hhi : forall n : Z, tileCount sw ne = Int n -> (4 < n)%Z ->
                Some (if Num_gtb (tileCount sw ne) (Int 4) then Int 0
                      else defaultValue (minimumLevel options)
                                        (parseInt (getAttribute first "order")))
                = Some (Int 0)).
  { intros n E Hn. rewrite (Hgt n E). apply Z.ltb_lt in Hn. now rewrite Hn. }
  assert (Hlo : forall n : Z, tileCount sw ne = Int n -> (n <= 4)%Z ->
                Some (if Num_gtb (tileCount sw ne) (Int 4) then Int 0
                      else defaultValue (minimumLevel options)
                                        (parseInt (getAttribute first "order")))
                = Some (defaultValue (minimumLevel options)
                                     (parseInt (getAttribute first "order")))).
  { intros n E Hn. rewrite (Hgt n E). apply Z.ltb_ge in Hn. now rewrite Hn. }
  split.
  { intros a b c d -> ->. split; [reflexivity|]. split.
    - apply Hhi. reflexivity.
    - apply Hlo. reflexivity. }
  split.
  { destruct sw as [[|a] [|b]], ne as [[|c] [|d]]; cbn; split;
      try (intros _; tauto); try discriminate;
      try (intros [E|[E|[E|E]]]; discriminate E); try reflexivity. }
  split; [exact Hhi|]. split; [exact Hlo|].
  split. { intros ->. reflexivity. }
  split. { intros E. apply (Hlo 4%Z E). lia. }
  intros Hne'.
  destruct (tileCount sw ne) as [|n] eqn:E.
  - exfalso. apply Hne'. reflexivity.
  - destruct (Z.ltb_spec 4 n) as [Hn|Hn].
    + split; [ now apply (Hhi n) | exists n; split; [reflexivity | exact Hn] ].
    + exfalso. apply Hne'. now apply (Hlo n).
Qed.

(** C8, as the code has it: on every resolved configuration the
    rectangle is the clamp of the rectangle of [options] or of the
    bounding box; no edge is beyond the scheme's (west and south are not
    below the scheme's, east and north not above); the clamp moved west
    and south only up, east and north only down; and west and east, south
    and north, are in order whenever they were before the clamp and the
    rectangle met the scheme's. *)
Theorem resolved_rectangle_clamped options xml :
  _ready (settled options (Loaded xml)) = true ->
  exists root tsn ts r0 r,
    item (doc_childNodes xml) 0 = Some root
    /\ tilesets (scanNodes (childNodes root)) = Some tsn
    /\ _tilingScheme (settled options (Loaded xml)) = Some ts
    /\ unclampedRectangle options (flipXY_of (getAttribute tsn "profile")) ts
         (bbox (scanNodes (childNodes root))) = Some r0
    /\ _rectangle (settled options (Loaded xml)) = Some r
    /\ r = clampToScheme (TilingScheme.rectangle ts) r0
    /\ let bounds := TilingScheme.rectangle ts in
       ((Rectangle.west r <? Rectangle.west bounds) = false
        /\ (Rectangle.east bounds <? Rectangle.east r) = false
        /\ (Rectangle.south r <? Rectangle.south bounds) = false
        /\ (Rectangle.north bounds <? Rectangle.north r) = false)
       /\ ((Rectangle.west r <? Rectangle.west r0) = false
           /\ (Rectangle.east r0 <? Rectangle.east r) = false
           /\ (Rectangle.south r <? Rectangle.south r0) = false
           /\ (Rectangle.north r0 <? Rectangle.north r) = false)
       /\ ((Rectangle.west r0 <=? Rectangle.east r0) = true ->
           (Rectangle.west r0 <=? Rectangle.east bounds) = true ->
           (Rectangle.west bounds <=? Rectangle.east r0) = true ->
           (Rectangle.west bounds <=? Rectangle.east bounds) = true ->
           (Rectangle.west r <=? Rectangle.east r) = true)
       /\ ((Rectangle.south r0 <=? Rectangle.north r0) = true ->
           (Rectangle.south r0 <=? Rectangle.north bounds) = true ->
           (Rectangle.south bounds <=? Rectangle.north r0) = true ->
           (Rectangle.south bounds <=? Rectangle.north bounds) = true ->
           (Rectangle.south r <=? Rectangle.north r) = true).
Proof.
  intros Hready.
  destruct (ready_resolves _ _ Hready)
    as [root f first last tsn ts r0 sw ne Hroot Hf Hfirst Hlast Htsn Hts Hr0 Hsw Hne].
  exists root, tsn, ts, r0, (clampToScheme (TilingScheme.rectangle ts) r0).
  cbn [_tilingScheme _rectangle].
  repeat (split; [first [assumption | reflexivity]|]).
  cbv zeta.
  split; [apply clampToScheme_not_outside|].
  split; [apply clampToScheme_tightens|].
  split; [apply clampToScheme_ordered | apply clampToScheme_ordered_latitude].
Qed.

Lemma selectedScheme_unsupported options tilingSchemeName :
  tilingScheme options = None ->
  supportedProfile tilingSchemeName = false ->
  selectedScheme options tilingSchemeName = None.
Proof.
  unfold selectedScheme, supportedProfile. intros -> H.
  destruct (Attr_is tilingSchemeName "geodetic"),
    (Attr_is tilingSchemeName "global-geodetic"),
    (Attr_is tilingSchemeName "mercator"),
    (Attr_is tilingSchemeName "global-mercator"); try discriminate H; reflexivity.
Qed.

Lemma Attr_is_true (a : Attr) (lit : string) : a = Some lit -> Attr_is a lit = true.
Proof. intros ->. unfold Attr_is. apply String.eqb_refl. Qed.

(** C6: for a profile [geodetic] or [mercator] and no rectangle in
    [options], the rectangle taken from the bounding box has southwest
    (longitude miny, latitude minx) and northeast (longitude maxy,
    latitude maxx), each converted from degrees to radians; the resolved
    rectangle is its clamp; and [flipXY] is true for exactly these two
    profiles. *)
Theorem flipped_bounding_box options xml root tsn b :
  item (doc_childNodes xml) 0 = Some root ->
  tilesets (scanNodes (childNodes root)) = Some tsn ->
  bbox (scanNodes (childNodes root)) = Some b ->
  getAttribute tsn "profile" = Some "geodetic"
  \/ getAttribute tsn "profile" = Some "mercator" ->
  rectangle options = None ->
  let minx := parseFloat (getAttribute b "minx") in
  let miny := parseFloat (getAttribute b "miny") in
  let maxx := parseFloat (getAttribute b "maxx") in
  let maxy := parseFloat (getAttribute b "maxy") in
  let derived :=
    Rectangle.new (toRadians miny) (toRadians minx) (toRadians maxy) (toRadians maxx) in
  (forall name,
      flipXY_of name = true <-> name = Some "geodetic" \/ name = Some "mercator")
  /\ (forall s : Closure,
         deriveRectangle (flipXY_of (getAttribute tsn "profile")) (Some b) s
         = (Normal tt,
            mkClosure (set_rectangle (Some derived) (that s)) (metadataError s)))
  /\ Rectangle.southwest derived = Cartographic_fromDegrees miny minx
  /\ Rectangle.northeast derived = Cartographic_fromDegrees maxy maxx
  /\ (_ready (settled options (Loaded xml)) = true ->
      exists ts,
        _tilingScheme (settled options (Loaded xml)) = Some ts
        /\ _rectangle (settled options (Loaded xml))
           = Some (clampToScheme (TilingScheme.rectangle ts) derived)).
Proof.
  intros Hroot Htsn Hb Hprofile Hrect minx miny maxx maxy derived.
  assert (Hflip : flipXY_of (getAttribute tsn "profile") = true)
    by (apply flipXY_of_true; exact Hprofile).
  split; [exact flipXY_of_true|].
  split; [intros s; rewrite Hflip; reflexivity|].
  split; [reflexivity|]. split; [reflexivity|].
  intros Hready.
  destruct (ready_resolves _ _ Hready)
    as [root' f first last tsn' ts r0 sw ne Hroot' Hf Hfirst Hlast Htsn' Hts Hr0 Hsw Hne].
  rewrite Hroot in Hroot'. injection Hroot' as <-.
  rewrite Htsn in Htsn'. injection Htsn' as <-.
  unfold unclampedRectangle in Hr0. rewrite Hrect, Hb, Hflip in Hr0.
  injection Hr0 as <-.
  exists ts. split; reflexivity.
Qed.

(** C7: without a rectangle in [options] and without the flip, the
    rectangle derived from the bounding box is made of the raw points
    (minx, miny) and (maxx, maxy), without a swap: read as degrees when
    the scheme is of class [GeographicTilingScheme], and otherwise
    unprojected by the scheme's projection; the resolved rectangle is its
    clamp.  Without a scheme in [options] the profile [global-mercator]
    gives the Web Mercator scheme and so the unprojection, and the
    profile [global-geodetic] gives the geographic scheme and so the
    degrees. *)
Theorem unflipped_bounding_box options xml root tsn b :
  item (doc_childNodes xml) 0 = Some root ->
  tilesets (scanNodes (childNodes root)) = Some tsn ->
  bbox (scanNodes (childNodes root)) = Some b ->
  flipXY_of (getAttribute tsn "profile") = false ->
  rectangle options = None ->
  let swXY := Cartesian2.new (parseFloat (getAttribute b "minx"))
                             (parseFloat (getAttribute b "miny")) in
  let neXY := Cartesian2.new (parseFloat (getAttribute b "maxx"))
                             (parseFloat (getAttribute b "maxy")) in
  let degrees :=
    Rectangle.new (toRadians (Cartesian2.x swXY)) (toRadians (Cartesian2.y swXY))
                  (toRadians (Cartesian2.x neXY)) (toRadians (Cartesian2.y neXY)) in
  let unprojected (ts : TilingScheme.t) :=
    Rectangle.new (Cartographic.longitude (TilingScheme.unproject ts swXY))
                  (Cartographic.latitude (TilingScheme.unproject ts swXY))
                  (Cartographic.longitude (TilingScheme.unproject ts neXY))
                  (Cartographic.latitude (TilingScheme.unproject ts neXY)) in
  let derived (ts : TilingScheme.t) :=
    match TilingScheme.classOf ts with
    | GeographicTilingSchemeClass => degrees
    | WebMercatorTilingSchemeClass | OtherSchemeClass => unprojected ts
    end in
  (forall (s : Closure) ts,
      _tilingScheme (that s) = Some ts ->
      deriveRectangle (flipXY_of (getAttribute tsn "profile")) (Some b) s
      = (Normal tt,
         mkClosure (set_rectangle (Some (derived ts)) (that s)) (metadataError s)))
  /\ (_ready (settled options (Loaded xml)) = true ->
      exists ts,
        _tilingScheme (settled options (Loaded xml)) = Some ts
        /\ _rectangle (settled options (Loaded xml))
           = Some (clampToScheme (TilingScheme.rectangle ts) (derived ts))
        /\ (TilingScheme.classOf ts = GeographicTilingSchemeClass ->
            _rectangle (settled options (Loaded xml))
            = Some (clampToScheme (TilingScheme.rectangle ts) degrees))
        /\ (TilingScheme.classOf ts <> GeographicTilingSchemeClass ->
            _rectangle (settled options (Loaded xml))
            = Some (clampToScheme (TilingScheme.rectangle ts) (unprojected ts)))
        /\ (getAttribute tsn "profile" = Some "global-mercator" ->
            tilingScheme options = None ->
            ts = WebMercatorTilingScheme (ellipsoid options)
            /\ derived ts = unprojected ts
            /\ _rectangle (settled options (Loaded xml))
               = Some (clampToScheme
                         (TilingScheme.rectangle (WebMercatorTilingScheme (ellipsoid options)))
                         (unprojected (WebMercatorTilingScheme (ellipsoid options)))))
        /\ (getAttribute tsn "profile" = Some "global-geodetic" ->
            tilingScheme options = None ->
            ts = GeographicTilingScheme (ellipsoid options)
            /\ derived ts = degrees
            /\ _rectangle (settled options (Loaded xml))
               = Some (clampToScheme
                         (TilingScheme.rectangle (GeographicTilingScheme (ellipsoid options)))
                         degrees))).
Proof.
  intros Hroot Htsn Hb Hflip Hrect swXY neXY degrees unprojected derived.
  assert (Hbox : forall ts, bboxRectangle false ts b = derived ts).
  { intros ts. unfold bboxRectangle, derived.
    unfold instanceofGeographicTilingScheme.
    destruct (TilingScheme.classOf ts); reflexivity. }
  split.
  - intros s ts Hts. rewrite Hflip, (deriveRectangle_node _ _ _ _ Hts), Hbox.
    reflexivity.
  - intros Hready.
    destruct (ready_resolves _ _ Hready)
      as [root' f first last tsn' ts r0 sw ne Hroot' Hf Hfirst Hlast Htsn' Hts Hr0 Hsw Hne].
    rewrite Hroot in Hroot'. injection Hroot' as <-.
    rewrite Htsn in Htsn'. injection Htsn' as <-.
    unfold unclampedRectangle in Hr0. rewrite Hrect, Hb, Hflip in Hr0.
    cbn [option_map] in Hr0. rewrite Hbox in Hr0.
    injection Hr0 as <-.
    exists ts. cbn [_tilingScheme _rectangle].
    split; [reflexivity|]. split; [reflexivity|].
    split. { intros Hc. unfold derived. rewrite Hc. reflexivity. }
    split. { intros Hc. unfold derived.
             destruct (TilingScheme.classOf ts); [contradiction Hc|..]; reflexivity. }
    split.
    + intros Hprofile Hopt.
      unfold selectedScheme in Hts. rewrite Hopt, Hprofile in Hts.
      cbn in Hts. injection Hts as <-. repeat split; reflexivity.
    + intros Hprofile Hopt.
      unfold selectedScheme in Hts. rewrite Hopt, Hprofile in Hts.
      cbn in Hts. injection Hts as <-. repeat split; reflexivity.
Qed.

(** C2, as the code has it: on every resolved configuration the file
    extension, tile width, tile height, maximum level and tiling scheme
    of [options] are used as given; the rectangle of [options] is used
    after the clamp to the scheme's rectangle; and the minimum level of
    [options] is used unless the corners of the rectangle are more than
    four tiles apart at that level, in which case it is 0. *)
Theorem overrides_in_resolved_configuration options xml :
  _ready (settled options (Loaded xml)) = true ->
  (forall e, fileExtension options = Some e ->
             _fileExtension (settled options (Loaded xml)) = Some (Some e))
  /\ (forall w, tileWidth options = Some w ->
                _tileWidth (settled options (Loaded xml)) = Some w)
  /\ (forall h, tileHeight options = Some h ->
                _tileHeight (settled options (Loaded xml)) = Some h)
  /\ (forall m, maximumLevel options = Some m ->
                _maximumLevel (settled options (Loaded xml)) = Some m)
  /\ (forall ts, tilingScheme options = Some ts ->
                 _tilingScheme (settled options (Loaded xml)) = Some ts)
  /\ (forall r, rectangle options = Some r ->
                exists ts,
                  _tilingScheme (settled options (Loaded xml)) = Some ts
                  /\ _rectangle (settled options (Loaded xml))
                     = Some (clampToScheme (TilingScheme.rectangle ts) r))
  /\ (forall m, minimumLevel options = Some m ->
                exists ts r sw ne,
                  _tilingScheme (settled options (Loaded xml)) = Some ts
                  /\ _rectangle (settled options (Loaded xml)) = Some r
                  /\ TilingScheme.positionToTileXY ts (Rectangle.southwest r) m = Some sw
                  /\ TilingScheme.positionToTileXY ts (Rectangle.northeast r) m = Some ne
                  /\ _minimumLevel (settled options (Loaded xml))
                     = Some (if Num_gtb (tileCount sw ne) (Int 4) then Int 0 else m)).
Proof.
  intros Hready.
  destruct (ready_resolves _ _ Hready)
    as [root f first last tsn ts r0 sw ne Hroot Hf Hfirst Hlast Htsn Hts Hr0 Hsw Hne].
  cbn [_fileExtension _tileWidth _tileHeight _maximumLevel _tilingScheme _rectangle
       _minimumLevel].
  unfold lastLevel, firstLevel in *.
  repeat split.
  - intros e ->. reflexivity.
  - intros w ->. reflexivity.
  - intros h ->. reflexivity.
  - intros m ->. reflexivity.
  - intros ts' E. unfold selectedScheme in Hts. rewrite E in Hts. exact (eq_sym Hts).
  - intros r E. unfold unclampedRectangle in Hr0. rewrite E in Hr0.
    injection Hr0 as <-. exists ts. split; reflexivity.
  - intros m E. rewrite E in *. cbn [defaultValue] in *.
    exists ts, (clampToScheme (TilingScheme.rectangle ts) r0), sw, ne.
    repeat split; assumption || reflexivity.
Qed.

(** C3, as the code has it: when [options] names no tiling scheme and
    the profile is none of the four, the provider does not become ready;
    and when the document has a [format] node and a tile set, so that
    the scalars are read, [metadataSuccess] returns early with the ready
    promise rejected and the error handed to [handleError], both with the
    message that ends in the profile string. *)
Theorem unsupported_profile_rejected options xml root tsn :
  item (doc_childNodes xml) 0 = Some root ->
  tilesets (scanNodes (childNodes root)) = Some tsn ->
  tilingScheme options = None ->
  supportedProfile (getAttribute tsn "profile") = false ->
  _ready (settled options (Loaded xml)) = false
  /\ forall f first,
      format (scanNodes (childNodes root)) = Some f ->
      item (tilesetsList (scanNodes (childNodes root))) 0 = Some first ->
      let message :=
        (joinUrls (url options) "tilemapresource.xml"
           ++ "specifies an unsupported profile attribute, "
           ++ Attr_toString (getAttribute tsn "profile") ++ ".")%string in
      let run := metadataSuccess options xml (TileMapServiceImageryProvider options) in
      fst run = Return
      /\ metadataError (snd run) = Some (handleError None message)
      /\ _readyPromise (settled options (Loaded xml)) = Rejected message
      /\ _tilingScheme (settled options (Loaded xml)) = None.
Proof.
  intros Hroot Htsn Hopt Hprofile.
  pose proof (selectedScheme_unsupported _ _ Hopt Hprofile) as Hnone.
  split.
  - destruct (_ready (settled options (Loaded xml))) eqn:Hready; [|reflexivity].
    destruct (ready_resolves _ _ Hready)
      as [root' f first last tsn' ts r0 sw ne Hroot' Hf Hfirst Hlast Htsn' Hts Hr0 Hsw Hne].
    rewrite Hroot in Hroot'. injection Hroot' as <-.
    rewrite Htsn in Htsn'. injection Htsn' as <-.
    congruence.
  - intros f first Hf Hfirst message run.
    destruct (item_last_of_first _ _ Hfirst) as [last Hlast].
    pose proof (Rejects options xml root f first last tsn
                  Hroot Hf Hfirst Hlast Htsn Hnone) as R.
    subst run. rewrite settled_Loaded, (metadataSuccess_rejects _ _ _ _ R).
    repeat split.
Qed.

(** C10, as the code has it: when [options] names a tiling scheme the
    unsupported-profile branch is not taken, whatever the document; and
    when the document has a [format] node, a [tilesets] node with a tile
    set, and a rectangle comes from [options] or the bounding box, and
    the scheme places both corners in tiles, the provider becomes ready
    with that scheme, whatever the profile string; [flipXY], which only
    the bounding box rectangle depends on, is true just for [geodetic]
    and [mercator]. *)
Theorem supplied_scheme_skips_profile_check options xml ts :
  tilingScheme options = Some ts ->
  let run := metadataSuccess options xml (TileMapServiceImageryProvider options) in
  (fst run <> Return
   /\ metadataError (snd run) = None
   /\ forall message, _readyPromise (settled options (Loaded xml)) <> Rejected message)
  /\ (forall root f first tsn r0 sw ne,
         item (doc_childNodes xml) 0 = Some root ->
         format (scanNodes (childNodes root)) = Some f ->
         item (tilesetsList (scanNodes (childNodes root))) 0 = Some first ->
         tilesets (scanNodes (childNodes root)) = Some tsn ->
         unclampedRectangle options (flipXY_of (getAttribute tsn "profile")) ts
           (bbox (scanNodes (childNodes root))) = Some r0 ->
         TilingScheme.positionToTileXY ts
           (Rectangle.southwest (clampToScheme (TilingScheme.rectangle ts) r0))
           (firstLevel options first) = Some sw ->
         TilingScheme.positionToTileXY ts
           (Rectangle.northeast (clampToScheme (TilingScheme.rectangle ts) r0))
           (firstLevel options first) = Some ne ->
         fst run = Normal tt
         /\ _ready (settled options (Loaded xml)) = true
         /\ _readyPromise (settled options (Loaded xml)) = Resolved true
         /\ _tilingScheme (settled options (Loaded xml)) = Some ts
         /\ _rectangle (settled options (Loaded xml))
            = Some (clampToScheme (TilingScheme.rectangle ts) r0))
  /\ (forall name,
         flipXY_of name = true <-> name = Some "geodetic" \/ name = Some "mercator").
Proof.
  intros Hopt run.
  assert (Hsel : forall name, selectedScheme options name = Some ts)
    by (intros name; unfold selectedScheme; rewrite Hopt; reflexivity).
  split; [|split; [|exact flipXY_of_true]].
  - subst run. rewrite settled_Loaded.
    destruct (metadataSuccess options xml (TileMapServiceImageryProvider options))
      as [c st] eqn:E.
    destruct (metadataSuccess_outcome _ _ _ _ E)
      as [(-> & p & -> & R) | [(_ & p & m & -> & R) | (e & -> & _ & Hpending & Herr)]];
      cbn.
    + destruct R. cbn. repeat split; discriminate.
    + destruct R as [root f first last tsn _ _ _ _ _ Hnone].
      rewrite Hsel in Hnone. discriminate Hnone.
    + rewrite Hpending, Herr. repeat split; discriminate.
  - intros root f first tsn r0 sw ne Hroot Hf Hfirst Htsn Hr0 Hsw Hne.
    destruct (item_last_of_first _ _ Hfirst) as [last Hlast].
    pose proof (Resolves options xml root f first last tsn ts r0 sw ne
                  Hroot Hf Hfirst Hlast Htsn (Hsel _) Hr0 Hsw Hne) as R.
    subst run. rewrite settled_Loaded, (metadataSuccess_resolves _ _ _ R).
    repeat split.
Qed.

End Resolved.

(* ================================================================== *)
(** ** The loop over the document *)

Lemma scanNodes_snoc l n : scanNodes (l ++ [n]) = visit (scanNodes l) n.
Proof. unfold scanNodes. rewrite fold_left_app. reflexivity. Qed.

Lemma pushTileSet_fold children l :
  fold_left pushTileSet children l = (l ++ filter isTileSetNode children)%list.
Proof.
  revert l. induction children as [|c cs IH]; intros l; cbn [fold_left filter].
  - now rewrite app_nil_r.
  - rewrite IH. unfold pushTileSet, isTileSetNode.
    destruct (test tileSetRegex (nodeName c)); [|reflexivity].
    now rewrite <- app_assoc.
Qed.

Lemma scanNodes_spec nodeList :
  format (scanNodes nodeList) = find isFormatNode (rev nodeList)
  /\ tilesets (scanNodes nodeList) = find isTileSetsNode (rev nodeList)
  /\ bbox (scanNodes nodeList) = find isBoundingBoxNode (rev nodeList)
  /\ tilesetsList (scanNodes nodeList)
     = flat_map (fun n => filter isTileSetNode (childNodes n))
         (filter isTileSetsNode nodeList).
Proof.
  induction nodeList as [|n l IH] using rev_ind; [repeat split|].
  destruct IH as (Hf & Ht & Hb & Hl).
  rewrite scanNodes_snoc, rev_app_distr, filter_app, flat_map_app.
  cbn [rev app find filter flat_map].
  unfold visit, isFormatNode, isTileSetsNode, isBoundingBoxNode in *.
  destruct (test tileFormatRegex (nodeName n)); cbn;
    [rewrite app_nil_r; auto|].
  destruct (test tileSetsRegex (nodeName n)); cbn.
  - rewrite pushTileSet_fold, !app_nil_r, Hl. auto.
  - rewrite app_nil_r.
    destruct (test bboxRegex (nodeName n)); cbn; [auto|].
    destruct (test srsRegex (nodeName n)); cbn; auto.
Qed.

(** Of several nodes of a kind the last one is kept: [format],
    [tilesets] and [bbox] are the last node, in document order, that the
    chain of the loop takes for a tile format, for tile sets and for a
    bounding box. *)
Theorem scanNodes_keeps_last_node nodeList :
  format (scanNodes nodeList) = find isFormatNode (rev nodeList)
  /\ tilesets (scanNodes nodeList) = find isTileSetsNode (rev nodeList)
  /\ bbox (scanNodes nodeList) = find isBoundingBoxNode (rev nodeList).
Proof.
  destruct (scanNodes_spec nodeList) as (Hf & Ht & Hb & _). auto.
Qed.

(** The tile sets of every [tilesets] node are collected, one node after
    the other in document order: [tilesetsList] is not reset when a
    second [tilesets] node is met. *)
Theorem scanNodes_collects_every_tile_set nodeList :
  tilesetsList (scanNodes nodeList)
  = flat_map (fun n => filter isTileSetNode (childNodes n))
      (filter isTileSetsNode nodeList).
Proof. exact (proj2 (proj2 (proj2 (scanNodes_spec nodeList)))). Qed.

Lemma find_app_node (f : Node -> bool) (a b : list Node) :
  find f (a ++ b)
  = match find f a with
    | Some x => Some x
    | None => find f b
    end.
Proof.
  induction a as [|x a IH]; [reflexivity|]. cbn. destruct (f x); [reflexivity|exact IH].
Qed.

Lemma find_skip (f : Node -> bool) (a b : list Node) n :
  f n = false -> find f (a ++ n :: b) = find f (a ++ b).
Proof. intros H. rewrite !find_app_node. cbn. rewrite H. reflexivity. Qed.

Lemma filter_skip (f : Node -> bool) (a b : list Node) n :
  f n = false -> filter f (a ++ n :: b) = filter f (a ++ b).
Proof. intros H. rewrite !filter_app. cbn. rewrite H. reflexivity. Qed.

Lemma rev_middle (a b : list Node) n : rev (a ++ n :: b) = (rev b ++ n :: rev a)%list.
Proof. rewrite rev_app_distr. cbn. now rewrite <- app_assoc. Qed.

Section Scan.
Context {imports : Imports}.

Arguments item : simpl never.
Arguments scanNodes : simpl never.
Arguments clampToScheme : simpl never.
Arguments tileCount : simpl never.
Arguments flipXY_of : simpl never.
Arguments Num_gtb : simpl never.
Arguments Attr_is : simpl never.
Arguments instanceofGeographicTilingScheme : simpl never.

(** [metadataSuccess] reads the document only through the four
    variables of the loop that it uses. *)
Lemma metadataSuccess_reads_locals options xml xml' root root' (s : Closure) :
  item (doc_childNodes xml) 0 = Some root ->
  item (doc_childNodes xml') 0 = Some root' ->
  format (scanNodes (childNodes root)) = format (scanNodes (childNodes root')) ->
  tilesets (scanNodes (childNodes root)) = tilesets (scanNodes (childNodes root')) ->
  tilesetsList (scanNodes (childNodes root)) = tilesetsList (scanNodes (childNodes root')) ->
  bbox (scanNodes (childNodes root)) = bbox (scanNodes (childNodes root')) ->
  metadataSuccess options xml s = metadataSuccess options xml' s.
Proof.
  intros Hroot Hroot' Hf Ht Hl Hb.
  unfold metadataSuccess. step. rewrite Hroot, Hroot'. step.
  rewrite Hf, Ht, Hl, Hb. reflexivity.
Qed.

(** A child of the root whose name matches none of [/tileformat/i],
    [/tilesets/i] and [/boundingbox/i] (a title, the SRS, a text node)
    changes nothing: the run is the one of the document without it. *)
Theorem other_nodes_are_ignored options name attrs text rest before n after (s : Closure) :
  test tileFormatRegex (nodeName n) = false ->
  test tileSetsRegex (nodeName n) = false ->
  test bboxRegex (nodeName n) = false ->
  metadataSuccess options
    (mkDocument (mkNode name attrs (before ++ n :: after) text :: rest)) s
  = metadataSuccess options
      (mkDocument (mkNode name attrs (before ++ after) text :: rest)) s.
Proof.
  intros Hf Ht Hb.
  assert (F : isFormatNode n = false) by exact Hf.
  assert (T : isTileSetsNode n = false) by (unfold isTileSetsNode; now rewrite Ht, andb_false_r).
  assert (B : isBoundingBoxNode n = false)
    by (unfold isBoundingBoxNode; now rewrite Hb, andb_false_r).
  eapply metadataSuccess_reads_locals; try reflexivity; cbn [childNodes].
  - rewrite (proj1 (scanNodes_spec _)), (proj1 (scanNodes_spec (before ++ after))).
    rewrite rev_middle, rev_app_distr. now apply find_skip.
  - rewrite (proj1 (proj2 (scanNodes_spec _))),
      (proj1 (proj2 (scanNodes_spec (before ++ after)))).
    rewrite rev_middle, rev_app_distr. now apply find_skip.
  - rewrite (proj2 (proj2 (proj2 (scanNodes_spec _)))),
      (proj2 (proj2 (proj2 (scanNodes_spec (before ++ after))))).
    now rewrite filter_skip.
  - rewrite (proj1 (proj2 (proj2 (scanNodes_spec _)))),
      (proj1 (proj2 (proj2 (scanNodes_spec (before ++ after))))).
    rewrite rev_middle, rev_app_distr. now apply find_skip.
Qed.

Lemma metadataSuccess_rectangle_given options xml xml' root root' (s : Closure) r :
  item (doc_childNodes xml) 0 = Some root ->
  item (doc_childNodes xml') 0 = Some root' ->
  format (scanNodes (childNodes root)) = format (scanNodes (childNodes root')) ->
  tilesets (scanNodes (childNodes root)) = tilesets (scanNodes (childNodes root')) ->
  tilesetsList (scanNodes (childNodes root)) = tilesetsList (scanNodes (childNodes root')) ->
  _rectangle (that s) = Some r ->
  metadataSuccess options xml s = metadataSuccess options xml' s.
Proof.
  intros Hroot Hroot' Hf Ht Hl Hrect.
  unfold metadataSuccess. step. rewrite Hroot, Hroot'. step.
  rewrite Hf, Ht, Hl.
  destruct (format (scanNodes (childNodes root'))); step; [|reflexivity].
  destruct (item (tilesetsList (scanNodes (childNodes root'))) 0); step; [|reflexivity].
  destruct (item (tilesetsList (scanNodes (childNodes root')))
              (Z.of_nat (List.length (tilesetsList (scanNodes (childNodes root')))) - 1));
    step; [|reflexivity].
  destruct (tilesets (scanNodes (childNodes root'))) as [tsn|]; step; [|reflexivity].
  destruct (_tilingScheme (that s)); cbn [defined negb]; cbn.
  - rewrite Hrect. reflexivity.
  - destruct (Attr_is (getAttribute tsn "profile") "geodetic"
              || Attr_is (getAttribute tsn "profile") "global-geodetic")%bool; cbn.
    + rewrite Hrect. reflexivity.
    + destruct (Attr_is (getAttribute tsn "profile") "mercator"
                || Attr_is (getAttribute tsn "profile") "global-mercator")%bool; cbn.
      * rewrite Hrect. reflexivity.
      * reflexivity.
Qed.

(** With a rectangle in [options] the bounding box is not read: any
    child that is neither tile format nor tile sets, the bounding box
    included, can be taken out of the document without changing the run. *)
Theorem given_rectangle_skips_bounding_box options name attrs text rest before n after r :
  rectangle options = Some r ->
  test tileFormatRegex (nodeName n) = false ->
  test tileSetsRegex (nodeName n) = false ->
  metadataSuccess options
    (mkDocument (mkNode name attrs (before ++ n :: after) text :: rest))
    (TileMapServiceImageryProvider options)
  = metadataSuccess options
      (mkDocument (mkNode name attrs (before ++ after) text :: rest))
      (TileMapServiceImageryProvider options).
Proof.
  intros Hrect Hf Ht.
  assert (F : isFormatNode n = false) by exact Hf.
  assert (T : isTileSetsNode n = false) by (unfold isTileSetsNode; now rewrite Ht, andb_false_r).
  eapply metadataSuccess_rectangle_given; try reflexivity; cbn [childNodes].
  - rewrite (proj1 (scanNodes_spec _)), (proj1 (scanNodes_spec (before ++ after))).
    rewrite rev_middle, rev_app_distr. now apply find_skip.
  - rewrite (proj1 (proj2 (scanNodes_spec _))),
      (proj1 (proj2 (scanNodes_spec (before ++ after)))).
    rewrite rev_middle, rev_app_distr. now apply find_skip.
  - rewrite (proj2 (proj2 (proj2 (scanNodes_spec _)))),
      (proj2 (proj2 (proj2 (scanNodes_spec (before ++ after))))).
    now rewrite filter_skip.
  - exact Hrect.
Qed.









End Scan.

(* ================================================================== *)
(** ** The settled provider, its getters and [requestImage] *)

Section Settled.

Context {imports : Imports}.

Lemma requestMetadata_Loaded_snd options xml :
  snd (requestMetadata options (Loaded xml) (TileMapServiceImageryProvider options))
  = snd (metadataSuccess options xml (TileMapServiceImageryProvider options)).
Proof.
  unfold requestMetadata, call.
  destruct (metadataSuccess options xml (TileMapServiceImageryProvider options))
    as [[a| |e] st]; reflexivity.
Qed.

(** After either callback the promise, the flag and the error variable
    agree: resolved (with true) exactly when ready, pending with no error
    recorded, or rejected with the message that [handleError] was given. *)
Theorem ready_promise_and_error_agree options response :
  let c := snd (requestMetadata options response (TileMapServiceImageryProvider options)) in
  match _readyPromise (that c) with
  | Resolved value => value = true /\ _ready (that c) = true /\ metadataError c = None
  | Pending => _ready (that c) = false /\ metadataError c = None
  | Rejected message =>
      _ready (that c) = false /\ metadataError c = Some (handleError None message)
  end.
Proof.
  destruct response as [xml|]; cbv zeta.
  - rewrite requestMetadata_Loaded_snd.
    destruct (metadataSuccess options xml (TileMapServiceImageryProvider options))
      as [c st] eqn:E.
    destruct (metadataSuccess_outcome _ _ _ _ E)
      as [(_ & p & -> & R) | [(_ & p & m & -> & R) | (e & _ & Hready & Hpending & Herr)]];
      cbn.
    + destruct R. cbn. auto.
    + destruct R. cbn. auto.
    + rewrite Hpending. auto.
  - unfold requestMetadata, call. rewrite metadataFailure_run. cbn. auto.
Qed.

(** The getters of a ready provider: [url] and [proxy] are those of
    [options]; tile width, tile height, minimum level, tiling scheme and
    rectangle are defined; the maximum level is [undefined] only after
    the fallback without a maximum level in [options]. *)
Theorem getters_of_ready_provider options response :
  _ready (settled options response) = true ->
  get_url (settled options response) = url options
  /\ get_proxy (settled options response) = proxy options
  /\ (exists w, get_tileWidth (settled options response) = inr (Some w))
  /\ (exists h, get_tileHeight (settled options response) = inr (Some h))
  /\ (exists m, get_minimumLevel (settled options response) = inr (Some m))
  /\ (exists ts, get_tilingScheme (settled options response) = inr (Some ts))
  /\ (exists r, get_rectangle (settled options response) = inr (Some r))
  /\ (exists e, _fileExtension (settled options response) = Some e)
  /\ (get_maximumLevel (settled options response) = inr None
      <-> response = Failed /\ maximumLevel options = None).
Proof.
  intros Hready.
  unfold get_url, get_proxy, get_tileWidth, get_tileHeight, get_minimumLevel,
    get_tilingScheme, get_rectangle, get_maximumLevel.
  rewrite Hready. cbn [negb].
  destruct response as [xml|].
  - destruct (ready_resolves _ _ Hready). cbn.
    repeat (split; [first [reflexivity | eexists; reflexivity]|]).
    split; [discriminate | intros [[=] _]].
  - unfold settled, requestMetadata, call. rewrite metadataFailure_run. cbn.
    repeat (split; [first [reflexivity | eexists; reflexivity]|]).
    split.
    + intros [= H]. auto.
    + intros [_ ->]. reflexivity.
Qed.

(** On the fallback every option is used as given: the rectangle is not
    clamped and the minimum level is not lowered. *)
Theorem metadataFailure_uses_options_verbatim options :
  (forall e, fileExtension options = Some e ->
             _fileExtension (settled options Failed) = Some (Some e))
  /\ (forall w, tileWidth options = Some w -> _tileWidth (settled options Failed) = Some w)
  /\ (forall h, tileHeight options = Some h -> _tileHeight (settled options Failed) = Some h)
  /\ (forall m, minimumLevel options = Some m ->
                _minimumLevel (settled options Failed) = Some m)
  /\ _maximumLevel (settled options Failed) = maximumLevel options
  /\ (forall ts, tilingScheme options = Some ts ->
                 _tilingScheme (settled options Failed) = Some ts)
  /\ (forall r, rectangle options = Some r -> _rectangle (settled options Failed) = Some r)
  /\ (rectangle options = None ->
      exists ts, _tilingScheme (settled options Failed) = Some ts
                 /\ _rectangle (settled options Failed) = Some (TilingScheme.rectangle ts)).
Proof.
  unfold settled, requestMetadata, call. rewrite metadataFailure_run. cbn.
  repeat split; try (intros ? ->; reflexivity).
  intros ->. eexists. split; reflexivity.
Qed.

End Settled.

Section ClampAgain.

Local Open Scope float_scope.

Lemma Rectangle_eta (r : Rectangle.t) :
  r = Rectangle.new (Rectangle.west r) (Rectangle.south r) (Rectangle.east r) (Rectangle.north r).
Proof. destruct r. reflexivity. Qed.

Lemma Rectangle_ext (a b : Rectangle.t) :
  Rectangle.west a = Rectangle.west b -> Rectangle.south a = Rectangle.south b ->
  Rectangle.east a = Rectangle.east b -> Rectangle.north a = Rectangle.north b ->
  a = b.
Proof. destruct a, b. cbn. intros -> -> -> ->. reflexivity. Qed.

(** The clamp leaves a rectangle as it is exactly when no edge is beyond
    the bounds, and clamping twice is clamping once. *)
Theorem clampToScheme_fixed_points bounds r :
  (clampToScheme bounds r = r
   <-> (Rectangle.west r <? Rectangle.west bounds) = false
       /\ (Rectangle.east bounds <? Rectangle.east r) = false
       /\ (Rectangle.south r <? Rectangle.south bounds) = false
       /\ (Rectangle.north bounds <? Rectangle.north r) = false)
  /\ clampToScheme bounds (clampToScheme bounds r) = clampToScheme bounds r.
Proof.
  assert (Fix : forall q,
             (Rectangle.west q <? Rectangle.west bounds) = false ->
             (Rectangle.east bounds <? Rectangle.east q) = false ->
             (Rectangle.south q <? Rectangle.south bounds) = false ->
             (Rectangle.north bounds <? Rectangle.north q) = false ->
             clampToScheme bounds q = q).
  { intros q Hw He Hs Hn. apply Rectangle_ext.
    - rewrite clampToScheme_west, Hw. reflexivity.
    - rewrite clampToScheme_south, Hs. reflexivity.
    - rewrite clampToScheme_east, He. reflexivity.
    - rewrite clampToScheme_north, Hn. reflexivity. }
  split; [split|].
  - intros E. pose proof (clampToScheme_not_outside bounds r) as H.
    rewrite E in H. exact H.
  - intros (Hw & He & Hs & Hn). now apply Fix.
  - destruct (clampToScheme_not_outside bounds r) as (Hw & He & Hs & Hn).
    now apply Fix.
Qed.

End ClampAgain.

Section Tiles.

(** The tile count does not depend on which corner comes first, is at
    least one for integer tiles, and exceeds four only for integer tiles:
    a tile index that is not a number never lowers the minimum level. *)
Theorem tileCount_symmetric_positive (sw ne : TileXY.t) :
  tileCount sw ne = tileCount ne sw
  /\ (forall n, tileCount sw ne = Int n -> 1 <= n)
  /\ (Num_gtb (tileCount sw ne) (Int 4) = true ->
      exists a b c d,
        sw = TileXY.new (Int a) (Int b) /\ ne = TileXY.new (Int c) (Int d)
        /\ 4 < (Z.abs (c - a) + 1) * (Z.abs (d - b) + 1)).
Proof.
  destruct sw as [[|a] [|b]], ne as [[|c] [|d]]; cbn;
    repeat split; try discriminate; try reflexivity.
  - f_equal. f_equal; f_equal; lia.
  - intros n [= <-]. nia.
  - intros H. exists a, b, c, d. repeat split. now apply Z.ltb_lt.
Qed.

(** On the rows of a level the flip is a bijection that reverses the
    order: the top row becomes the bottom one. *)
Theorem flippedRow_reverses_rows (rows y : Z) :
  0 <= y < rows ->
  exists y',
    flippedRow (Int rows) (Int y) = Int y'
    /\ 0 <= y' < rows
    /\ flippedRow (Int rows) (Int y') = Int y
    /\ (y = 0 <-> y' = rows - 1)
    /\ forall z z', 0 <= z < rows -> flippedRow (Int rows) (Int z) = Int z' ->
                    (y < z <-> z' < y').
Proof.
  intros H. exists (rows - y - 1). rewrite !flippedRow_Int.
  split; [reflexivity|]. split; [lia|]. split; [f_equal; lia|]. split; [lia|].
  intros z z' Hz E. rewrite flippedRow_Int in E. injection E as <-. lia.
Qed.

End Tiles.

Section Paths.

Context {imports : Imports}.

Lemma append_cancel_l (u a b : string) : u ++ a = u ++ b -> a = b.
Proof. induction u as [|c u IH]; cbn; [auto|]. intros [= H]. auto. Qed.

(** A string is cut in one way only at the first occurrence of [c]. *)
Lemma split_at_first (c : ascii) (s1 s2 r1 r2 : string) :
  occurs c s1 = false -> occurs c s2 = false ->
  s1 ++ String c r1 = s2 ++ String c r2 -> s1 = s2 /\ r1 = r2.
Proof.
  revert s2. induction s1 as [|a s1 IH]; intros [|b s2]; cbn.
  - intros _ _ [= ->]. auto.
  - intros _ H [= <- _]. rewrite Ascii.eqb_refl in H. discriminate.
  - intros H _ [= -> _]. rewrite Ascii.eqb_refl in H. discriminate.
  - intros H1 H2 [= -> E].
    apply orb_false_elim in H1. apply orb_false_elim in H2.
    destruct (IH s2 (proj2 H1) (proj2 H2) E) as [-> ->]. auto.
Qed.

Lemma digits_have_no (c : ascii) (d : Decimal.uint) :
  (c = "/" \/ c = ".")%char ->
  occurs c (DecimalString.NilEmpty.string_of_uint d) = false.
Proof.
  intros [-> | ->]; induction d; cbn; auto.
Qed.

Lemma Num_toString_has_no (c : ascii) (n : Num) :
  (c = "/" \/ c = ".")%char -> occurs c (Num_toString n) = false.
Proof.
  intros Hc. destruct n as [|z]; [destruct Hc as [-> | ->]; reflexivity|].
  unfold Num_toString, DecimalString.NilZero.string_of_int,
    DecimalString.NilZero.string_of_uint.
  destruct (Z.to_int z) as [d|d]; destruct d;
    try (destruct Hc as [-> | ->]; reflexivity);
    try apply (digits_have_no c _ Hc);
    cbn [occurs]; rewrite (digits_have_no c _ Hc);
    destruct Hc as [-> | ->]; reflexivity.
Qed.

(** Integers are printed apart: the decimal string gives the integer
    back. *)
Lemma Num_toString_Int_injective (a b : Z) :
  Num_toString (Int a) = Num_toString (Int b) -> a = b.
Proof.
  cbn. intros E.
  assert (R : forall z, DecimalString.NilZero.int_of_string
                          (DecimalString.NilZero.string_of_int (Z.to_int z))
                        = Some (Z.to_int z)).
  { intros z. apply DecimalString.NilZero.isi; destruct z; cbn; try discriminate;
      intros [= H]; now apply DecimalPos.Unsigned.to_uint_nonnil in H. }
  pose proof (R a) as Ra. rewrite E, R in Ra. injection Ra as Ra.
  rewrite <- (DecimalZ.of_to a), <- (DecimalZ.of_to b), Ra. reflexivity.
Qed.

(** No two tiles of a provider share a URL, as long as joining with
    the base URL and the proxy keep different paths apart and the scheme
    reports a row count for the level. *)
Theorem buildImageUrl_injective (p : Provider) ts rows x y level x' y' level' :
  _tilingScheme p = Some ts ->
  (forall a b, joinUrls (_url p) a = joinUrls (_url p) b -> a = b) ->
  (forall px, _proxy p = Some px -> forall a b, getURL px a = getURL px b -> a = b) ->
  TilingScheme.getNumberOfYTilesAtLevel ts (Int level) = Int rows ->
  buildImageUrl p (Int x) (Int y) (Int level)
  = buildImageUrl p (Int x') (Int y') (Int level') ->
  x = x' /\ y = y' /\ level = level'.
Proof.
  intros Hts Hjoin Hproxy Hrows. unfold buildImageUrl. rewrite Hts.
  intros [= E].
  assert (E' : joinUrls (_url p)
                 (Num_toString (Int level) ++ "/" ++ Num_toString (Int x) ++ "/"
                    ++ Num_toString
                         (flippedRow (TilingScheme.getNumberOfYTilesAtLevel ts (Int level))
                                     (Int y))
                    ++ "." ++ Field_toString (_fileExtension p))
               = joinUrls (_url p)
                   (Num_toString (Int level') ++ "/" ++ Num_toString (Int x') ++ "/"
                      ++ Num_toString
                           (flippedRow (TilingScheme.getNumberOfYTilesAtLevel ts (Int level'))
                                       (Int y'))
                      ++ "." ++ Field_toString (_fileExtension p))).
  { destruct (_proxy p) as [px|]; [|exact E]. exact (Hproxy px eq_refl _ _ E). }
  apply Hjoin in E'.
  apply split_at_first in E'; try (apply Num_toString_has_no; now left).
  destruct E' as [El E'].
  apply split_at_first in E'; try (apply Num_toString_has_no; now left).
  destruct E' as [Ex E'].
  apply split_at_first in E'; try (apply Num_toString_has_no; now right).
  destruct E' as [Ey _].
  apply Num_toString_Int_injective in El, Ex. subst level' x'.
  rewrite Hrows in Ey. cbn [flippedRow Num_sub Num_lift2] in Ey.
  apply Num_toString_Int_injective in Ey.
  repeat split; lia.
Qed.

End Paths.

Section Requests.

Context {imports : Imports}.
Variable Image : Type.
Variable loadImage : Provider -> string -> option float -> Image.

(** [requestImage] after either callback: the guard throws exactly when
    the provider is not ready, and otherwise the image is loaded from the
    URL of [buildImageUrl], which then does not throw. *)
Theorem requestImage_of_settled_provider options response x y level distance :
  let p := settled options response in
  (_ready p = false ->
   requestImage Image loadImage p x y level distance
   = inl (Developer (notReady "requestImage")))
  /\ (_ready p = true ->
      exists url,
        buildImageUrl p x y level = Normal url
        /\ requestImage Image loadImage p x y level distance
           = inr (loadImage p url distance))
  /\ forall e, requestImage Image loadImage p x y level distance <> inl (Engine e).
Proof.
  cbv zeta. unfold requestImage.
  destruct (_ready (settled options response)) eqn:Hready; cbn [negb].
  - destruct (ready_has_scheme _ _ Hready) as (_ & _ & ts & Hts).
    unfold buildImageUrl. rewrite Hts.
    repeat split; try discriminate. intros _. eexists. split; reflexivity.
  - repeat split; try discriminate.
Qed.

End Requests.

Section Profiles.

Context {imports : Imports}.

Lemma Attr_is_eq (a : Attr) (lit : string) : Attr_is a lit = true -> a = Some lit.
Proof.
  destruct a as [s|]; cbn; [|discriminate]. intros H.
  apply String.eqb_eq in H. now subst.
Qed.

(** Without a scheme in [options], the profile of a resolved document is
    one of the four, spelled exactly, and fixes both the scheme, built
    with the ellipsoid of [options], and the flip. *)
Theorem profile_fixes_scheme_and_flip options xml root tsn :
  _ready (settled options (Loaded xml)) = true ->
  tilingScheme options = None ->
  item (doc_childNodes xml) 0 = Some root ->
  tilesets (scanNodes (childNodes root)) = Some tsn ->
  let name := getAttribute tsn "profile" in
  let scheme := _tilingScheme (settled options (Loaded xml)) in
  (name = Some "geodetic"
   /\ scheme = Some (GeographicTilingScheme (ellipsoid options))
   /\ flipXY_of name = true)
  \/ (name = Some "global-geodetic"
      /\ scheme = Some (GeographicTilingScheme (ellipsoid options))
      /\ flipXY_of name = false)
  \/ (name = Some "mercator"
      /\ scheme = Some (WebMercatorTilingScheme (ellipsoid options))
      /\ flipXY_of name = true)
  \/ (name = Some "global-mercator"
      /\ scheme = Some (WebMercatorTilingScheme (ellipsoid options))
      /\ flipXY_of name = false).
Proof.
  intros Hready Hopt Hroot Htsn name scheme. subst scheme.
  destruct (ready_resolves _ _ Hready)
    as [root' f first last tsn' ts r0 sw ne Hroot' Hf Hfirst Hlast Htsn' Hts Hr0 Hsw Hne].
  rewrite Hroot in Hroot'. injection Hroot' as <-.
  rewrite Htsn in Htsn'. injection Htsn' as <-.
  cbn [_tilingScheme]. unfold selectedScheme in Hts. rewrite Hopt in Hts.
  fold name in Hts.
  destruct (Attr_is name "geodetic") eqn:E1.
  { apply Attr_is_eq in E1. cbn in Hts. injection Hts as <-.
    left. rewrite E1. repeat split. }
  destruct (Attr_is name "global-geodetic") eqn:E2.
  { apply Attr_is_eq in E2. cbn in Hts. injection Hts as <-.
    right; left. rewrite E2. repeat split. }
  cbn in Hts.
  destruct (Attr_is name "mercator") eqn:E3.
  { apply Attr_is_eq in E3. cbn in Hts. injection Hts as <-.
    right; right; left. rewrite E3. repeat split. }
  destruct (Attr_is name "global-mercator") eqn:E4; [|discriminate Hts].
  apply Attr_is_eq in E4. cbn in Hts. injection Hts as <-.
  right; right; right. rewrite E4. repeat split.
Qed.

End Profiles.

Section Patterns.

Lemma lower_eqb (a b : ascii) : Ascii.eqb (lower a) (lower b) = true <-> lower a = lower b.
Proof. apply Ascii.eqb_eq. Qed.

Lemma prefix_ci_spec (p s : string) :
  prefix_ci p s = true
  <-> exists mid post, s = mid ++ post /\ lowerCase mid = lowerCase p.
Proof.
  revert s. induction p as [|a p IH]; intros s; cbn.
  - split; [intros _; exists "", s; auto | auto].
  - destruct s as [|b s]; cbn.
    + split; [discriminate|]. intros (mid & post & E & L).
      destruct mid; [discriminate L|discriminate E].
    + rewrite andb_true_iff, lower_eqb, IH. split.
      * intros (Hab & mid & post & -> & L). exists (String b mid), post.
        cbn. split; [reflexivity|]. now rewrite L, Hab.
      * intros (mid & post & E & L). destruct mid as [|c mid]; [discriminate L|].
        cbn in E, L. injection E as -> ->. injection L as Hc L.
        split; [now symmetry|]. eauto.
Qed.

(** [/p/i] finds the letters of [p], in either case, anywhere in the
    name; and a name in which [/tilesets/i] finds a match is one in which
    [/tileset/i] does, so a [tilesets] node below a [tilesets] node counts
    as a tile set. *)
Theorem test_matches_anywhere (p s : string) :
  (test p s = true
   <-> exists pre mid post, s = pre ++ mid ++ post /\ lowerCase mid = lowerCase p)
  /\ (test tileSetsRegex s = true -> test tileSetRegex s = true).
Proof.
  assert (Spec : forall q t,
             test q t = true
             <-> exists pre mid post, t = pre ++ mid ++ post /\ lowerCase mid = lowerCase q).
  { intros q t. induction t as [|c t IH].
    - cbn [test]. rewrite orb_false_r, prefix_ci_spec. split.
      + intros (mid & post & E & L). exists "", mid, post. auto.
      + intros (pre & mid & post & E & L). destruct pre; [|discriminate E].
        cbn in E. exists mid, post. auto.
    - cbn [test]. rewrite orb_true_iff, prefix_ci_spec, IH. split.
      + intros [(mid & post & E & L) | (pre & mid & post & -> & L)].
        * exists "", mid, post. auto.
        * exists (String c pre), mid, post. auto.
      + intros (pre & mid & post & E & L). destruct pre as [|c' pre].
        * left. cbn in E. exists mid, post. auto.
        * right. cbn in E. injection E as -> ->. exists pre, mid, post. auto. }
  split; [apply Spec|].
  rewrite !Spec. intros (pre & mid & post & -> & L).
  unfold tileSetsRegex in L. unfold tileSetRegex.
  destruct mid as [|c1 mid]; [discriminate L|].
  destruct mid as [|c2 mid]; [discriminate L|].
  destruct mid as [|c3 mid]; [discriminate L|].
  destruct mid as [|c4 mid]; [discriminate L|].
  destruct mid as [|c5 mid]; [discriminate L|].
  destruct mid as [|c6 mid]; [discriminate L|].
  destruct mid as [|c7 mid]; [discriminate L|].
  destruct mid as [|c8 mid]; [discriminate L|].
  destruct mid; [|discriminate L].
  cbn in L. injection L as L1 L2 L3 L4 L5 L6 L7 L8.
  exists pre,
    (String c1 (String c2 (String c3 (String c4 (String c5 (String c6 (String c7 ""))))))),
    (String c8 post).
  split; [reflexivity|].
  cbn. now rewrite L1, L2, L3, L4, L5, L6, L7.
Qed.

End Patterns.

Section ProfileUnused.

Context {imports : Imports}.

Arguments item : simpl never.
Arguments scanNodes : simpl never.
Arguments clampToScheme : simpl never.
Arguments tileCount : simpl never.
Arguments flipXY_of : simpl never.
Arguments Num_gtb : simpl never.
Arguments Attr_is : simpl never.

Lemma metadataSuccess_scheme_and_rectangle_given options xml xml' root root' tsn tsn'
      (s : Closure) r ts :
  item (doc_childNodes xml) 0 = Some root ->
  item (doc_childNodes xml') 0 = Some root' ->
  format (scanNodes (childNodes root)) = format (scanNodes (childNodes root')) ->
  tilesetsList (scanNodes (childNodes root)) = tilesetsList (scanNodes (childNodes root')) ->
  tilesets (scanNodes (childNodes root)) = Some tsn ->
  tilesets (scanNodes (childNodes root')) = Some tsn' ->
  _rectangle (that s) = Some r ->
  _tilingScheme (that s) = Some ts ->
  metadataSuccess options xml s = metadataSuccess options xml' s.
Proof.
  intros Hroot Hroot' Hf Hl Ht Ht' Hrect Hts.
  unfold metadataSuccess. step. rewrite Hroot, Hroot'. step.
  rewrite Hf, Hl, Ht, Ht'.
  destruct (format (scanNodes (childNodes root'))); step; [|reflexivity].
  destruct (item (tilesetsList (scanNodes (childNodes root'))) 0); step; [|reflexivity].
  destruct (item (tilesetsList (scanNodes (childNodes root')))
              (Z.of_nat (List.length (tilesetsList (scanNodes (childNodes root')))) - 1));
    step; [|reflexivity].
  rewrite Hts. cbn. rewrite Hrect. reflexivity.
Qed.

Lemma find_replace (f : Node -> bool) (a b : list Node) n n' :
  f n = true -> f n' = true ->
  exists x x', find f (a ++ n :: b) = Some x /\ find f (a ++ n' :: b) = Some x'.
Proof.
  intros H H'. rewrite !find_app_node. cbn. rewrite H, H'.
  destruct (find f a); eauto.
Qed.

(** With a tiling scheme and a rectangle in [options] nothing depends
    on the attributes of the [tilesets] node, the profile included. *)
Theorem given_scheme_and_rectangle_ignore_profile
        options name attrs text rest before after nm kids txt tsAttrs tsAttrs' ts r :
  tilingScheme options = Some ts ->
  rectangle options = Some r ->
  test tileFormatRegex nm = false ->
  test tileSetsRegex nm = true ->
  metadataSuccess options
    (mkDocument (mkNode name attrs (before ++ mkNode nm tsAttrs kids txt :: after) text
                   :: rest))
    (TileMapServiceImageryProvider options)
  = metadataSuccess options
      (mkDocument (mkNode name attrs (before ++ mkNode nm tsAttrs' kids txt :: after) text
                     :: rest))
      (TileMapServiceImageryProvider options).
Proof.
  intros Hopt Hrect Hf Ht.
  assert (F : forall a, isFormatNode (mkNode nm a kids txt) = false) by (intros a; exact Hf).
  assert (T : forall a, isTileSetsNode (mkNode nm a kids txt) = true)
    by (intros a; unfold isTileSetsNode; cbn; now rewrite Hf, Ht).
  destruct (find_replace isTileSetsNode (rev after) (rev before) _ _ (T tsAttrs) (T tsAttrs'))
    as (tsn & tsn' & E & E').
  eapply metadataSuccess_scheme_and_rectangle_given with (tsn := tsn) (tsn' := tsn');
    try reflexivity; cbn [childNodes].
  - rewrite !(proj1 (scanNodes_spec _)), !rev_middle, !find_skip by apply F.
    reflexivity.
  - rewrite !(proj2 (proj2 (proj2 (scanNodes_spec _)))), !filter_app.
    cbn [filter]. rewrite !T, !flat_map_app. reflexivity.
  - rewrite (proj1 (proj2 (scanNodes_spec _))), rev_middle. exact E.
  - rewrite (proj1 (proj2 (scanNodes_spec _))), rev_middle. exact E'.
  - exact Hrect.
  - exact Hopt.
Qed.

End ProfileUnused.

(* ================================================================== *)
(** ** The properties on concrete documents *)

Local Open Scope float_scope.

#[local] Existing Instance Sample.imports.

(** A provider that fell back on the defaults is ready; its URL for tile
    (1, 0) of level 2 is the join of [tiles] and the path with the
    flipped row. *)
Lemma buildImageUrl_flipped_row_path_witness :
  _ready (settled (Sample.onlyUrl "tiles") Failed) = true
  /\ exists ts,
      _tilingScheme (settled (Sample.onlyUrl "tiles") Failed) = Some ts
      /\ buildImageUrl (settled (Sample.onlyUrl "tiles") Failed) (Int 1) (Int 0) (Int 2)
         = Normal
             (Sample.joinUrls "tiles"
                ("2/1/"
                   ++ Num_toString
                        (flippedRow (TilingScheme.getNumberOfYTilesAtLevel ts (Int 2))
                                    (Int 0))
                   ++ "." ++ "png")).
Proof.
  assert (H : _ready (settled (Sample.onlyUrl "tiles") Failed) = true)
    by (vm_compute; reflexivity).
  split; [exact H|].
  destruct (buildImageUrl_flipped_row_path (Sample.onlyUrl "tiles") Failed
              (Int 1) (Int 0) (Int 2) H) as (ts & Hts & Hurl & _).
  exists ts. split; [exact Hts|]. exact Hurl.
Defined.

(** The same provider, computed: four rows at level 2, so row 0 is 3. *)
Example buildImageUrl_fallback_example :
  buildImageUrl (settled (Sample.onlyUrl "tiles") Failed) (Int 1) (Int 0) (Int 2)
  = Normal "tiles/2/1/3.png".
Proof. vm_compute. reflexivity. Qed.

(** Every scalar of [options] given, the document of the whole globe. *)
Lemma overrides_in_resolved_configuration_witness :
  _ready (settled Sample.everyOverride (Loaded Sample.worldDocument)) = true
  /\ _fileExtension (settled Sample.everyOverride (Loaded Sample.worldDocument))
     = Some (Some "jpg"%string)
  /\ _tileWidth (settled Sample.everyOverride (Loaded Sample.worldDocument))
     = Some (Int 512)
  /\ _tileHeight (settled Sample.everyOverride (Loaded Sample.worldDocument))
     = Some (Int 512)
  /\ _maximumLevel (settled Sample.everyOverride (Loaded Sample.worldDocument))
     = Some (Int 5)
  /\ exists ts,
      _tilingScheme (settled Sample.everyOverride (Loaded Sample.worldDocument)) = Some ts
      /\ _rectangle (settled Sample.everyOverride (Loaded Sample.worldDocument))
         = Some (clampToScheme (TilingScheme.rectangle ts) (Rectangle.new (-4) (-2) 4 2)).
Proof.
  assert (H : _ready (settled Sample.everyOverride (Loaded Sample.worldDocument)) = true)
    by (vm_compute; reflexivity).
  split; [exact H|].
  destruct (overrides_in_resolved_configuration Sample.everyOverride Sample.worldDocument H)
    as (Hext & Hwidth & Hheight & Hmax & _ & Hrect & _).
  split; [apply Hext; reflexivity|].
  split; [apply Hwidth; reflexivity|].
  split; [apply Hheight; reflexivity|].
  split; [apply Hmax; reflexivity|].
  apply Hrect. reflexivity.
Defined.

(** C2 as stated fails on the same run: the minimum level 3 of [options]
    has become 0, because the globe is 128 tiles at level 3, and the
    rectangle of [options], larger than the globe, has become the
    rectangle of the scheme. *)
Lemma override_precedence_counterexample :
  _ready (settled Sample.everyOverride (Loaded Sample.worldDocument)) = true
  /\ minimumLevel Sample.everyOverride = Some (Int 3)
  /\ _minimumLevel (settled Sample.everyOverride (Loaded Sample.worldDocument))
     = Some (Int 0)
  /\ rectangle Sample.everyOverride = Some (Rectangle.new (-4) (-2) 4 2)
  /\ _rectangle (settled Sample.everyOverride (Loaded Sample.worldDocument))
     = Some (Rectangle.new (- Sample.PI) (- Sample.PI_OVER_TWO) Sample.PI Sample.PI_OVER_TWO)
  /\ (-4 <? - Sample.PI) = true.
Proof. repeat split; vm_compute; reflexivity. Qed.

(** A document with profile [unknown-value]. *)
Lemma unsupported_profile_rejected_witness :
  item (doc_childNodes Sample.unknownProfileDocument) 0
  = Some (Sample.tileMapRoot "unknown-value" "-180" "-90" "180" "90" ["0"; "1"]%string)
  /\ tilesets (scanNodes (childNodes
        (Sample.tileMapRoot "unknown-value" "-180" "-90" "180" "90" ["0"; "1"]%string)))
     = Some (Sample.tileSets "unknown-value" ["0"; "1"]%string)
  /\ tilingScheme (Sample.onlyUrl "tiles") = None
  /\ supportedProfile
       (getAttribute (Sample.tileSets "unknown-value" ["0"; "1"]%string) "profile") = false
  /\ _ready (settled (Sample.onlyUrl "tiles") (Loaded Sample.unknownProfileDocument)) = false
  /\ _readyPromise (settled (Sample.onlyUrl "tiles") (Loaded Sample.unknownProfileDocument))
     = Rejected
         "tiles/tilemapresource.xmlspecifies an unsupported profile attribute, unknown-value.".
Proof.
  assert (Hroot : item (doc_childNodes Sample.unknownProfileDocument) 0
                  = Some (Sample.tileMapRoot "unknown-value" "-180" "-90" "180" "90"
                            ["0"; "1"]%string)) by reflexivity.
  assert (Htsn : tilesets (scanNodes (childNodes
                   (Sample.tileMapRoot "unknown-value" "-180" "-90" "180" "90"
                      ["0"; "1"]%string)))
                 = Some (Sample.tileSets "unknown-value" ["0"; "1"]%string))
    by (vm_compute; reflexivity).
  assert (Hopt : tilingScheme (Sample.onlyUrl "tiles") = None) by reflexivity.
  assert (Hprofile : supportedProfile
                       (getAttribute (Sample.tileSets "unknown-value" ["0"; "1"]%string)
                          "profile") = false) by (vm_compute; reflexivity).
  destruct (unsupported_profile_rejected (Sample.onlyUrl "tiles")
              Sample.unknownProfileDocument _ _ Hroot Htsn Hopt Hprofile)
    as (Hready & Hrejected).
  repeat (split; [assumption|]).
  destruct (Hrejected Sample.tileFormat (Sample.tileSet "0"))
    as (_ & _ & Hpromise & _); [vm_compute; reflexivity | vm_compute; reflexivity |].
  exact Hpromise.
Defined.

(** C3 as stated fails on a document with the profile [unknown-value]
    and no tile format: [metadataSuccess] throws before it looks at the
    profile, the promise stays pending and no error is handed on.  The
    same happens when the tile format is there and no tile set is. *)
Lemma unsupported_profile_counterexample :
  tilesets (scanNodes (childNodes
     (Sample.rootWithoutTileFormat "unknown-value" "-180" "-90" "180" "90"
        ["0"; "1"]%string)))
  = Some (Sample.tileSets "unknown-value" ["0"; "1"]%string)
  /\ supportedProfile
       (getAttribute (Sample.tileSets "unknown-value" ["0"; "1"]%string) "profile") = false
  /\ tilingScheme (Sample.onlyUrl "tiles") = None
  /\ fst (metadataSuccess (Sample.onlyUrl "tiles") Sample.unknownProfileWithoutTileFormat
            (TileMapServiceImageryProvider (Sample.onlyUrl "tiles")))
     = Throw (TypeError "format")
  /\ metadataError
       (snd (metadataSuccess (Sample.onlyUrl "tiles") Sample.unknownProfileWithoutTileFormat
               (TileMapServiceImageryProvider (Sample.onlyUrl "tiles"))))
     = None
  /\ _readyPromise
       (settled (Sample.onlyUrl "tiles") (Loaded Sample.unknownProfileWithoutTileFormat))
     = Pending
  /\ fst (metadataSuccess (Sample.onlyUrl "tiles") Sample.withoutTileSet
            (TileMapServiceImageryProvider (Sample.onlyUrl "tiles")))
     = Throw (TypeError "tilesetsList[0]")
  /\ _readyPromise (settled (Sample.onlyUrl "tiles") (Loaded Sample.withoutTileSet))
     = Pending.
Proof. repeat split; vm_compute; reflexivity. Qed.

(** A hemisphere and one degree more is three by two tiles at its first
    level, 1, and the level becomes 0; the hemisphere alone is two by two
    tiles and keeps level 1. *)
Lemma minimumLevel_relaxed_above_four_witness :
  (_ready (settled (Sample.onlyUrl "tiles") (Loaded Sample.sixTilesDocument)) = true
   /\ exists ts r,
       _tilingScheme (settled (Sample.onlyUrl "tiles") (Loaded Sample.sixTilesDocument))
       = Some ts
       /\ _rectangle (settled (Sample.onlyUrl "tiles") (Loaded Sample.sixTilesDocument))
          = Some r
       /\ TilingScheme.positionToTileXY ts (Rectangle.southwest r) (Int 1)
          = Some (TileXY.new (Int 0) (Int 1))
       /\ TilingScheme.positionToTileXY ts (Rectangle.northeast r) (Int 1)
          = Some (TileXY.new (Int 2) (Int 0))
       /\ tileCount (TileXY.new (Int 0) (Int 1)) (TileXY.new (Int 2) (Int 0)) = Int 6
       /\ _minimumLevel (settled (Sample.onlyUrl "tiles") (Loaded Sample.sixTilesDocument))
          = Some (Int 0))
  /\ (_ready (settled (Sample.onlyUrl "tiles") (Loaded Sample.fourTilesDocument)) = true
      /\ exists ts r,
          _tilingScheme (settled (Sample.onlyUrl "tiles") (Loaded Sample.fourTilesDocument))
          = Some ts
          /\ _rectangle (settled (Sample.onlyUrl "tiles") (Loaded Sample.fourTilesDocument))
             = Some r
          /\ TilingScheme.positionToTileXY ts (Rectangle.southwest r) (Int 1)
             = Some (TileXY.new (Int 0) (Int 1))
          /\ TilingScheme.positionToTileXY ts (Rectangle.northeast r) (Int 1)
             = Some (TileXY.new (Int 1) (Int 0))
          /\ tileCount (TileXY.new (Int 0) (Int 1)) (TileXY.new (Int 1) (Int 0)) = Int 4
          /\ _minimumLevel (settled (Sample.onlyUrl "tiles")
                              (Loaded Sample.fourTilesDocument))
             = Some (Int 1)).
Proof.
  split.
  - assert (H : _ready (settled (Sample.onlyUrl "tiles") (Loaded Sample.sixTilesDocument))
                = true) by (vm_compute; reflexivity).
    assert (F : match _tilingScheme (settled (Sample.onlyUrl "tiles")
                                       (Loaded Sample.sixTilesDocument)),
                      _rectangle (settled (Sample.onlyUrl "tiles")
                                    (Loaded Sample.sixTilesDocument)) with
                | Some ts, Some r =>
                    (TilingScheme.positionToTileXY ts (Rectangle.southwest r) (Int 1),
                     TilingScheme.positionToTileXY ts (Rectangle.northeast r) (Int 1))
                | _, _ => (None, None)
                end
                = (Some (TileXY.new (Int 0) (Int 1)), Some (TileXY.new (Int 2) (Int 0))))
      by (vm_compute; reflexivity).
    split; [exact H|].
    destruct (minimumLevel_relaxed_above_four (Sample.onlyUrl "tiles")
                Sample.sixTilesDocument H)
      as (root & first & ts & r & sw & ne & Hroot & Hfirst & Hts & Hr & Hsw & Hne
          & Hcount & _).
    injection Hroot as <-.
    assert (E : Some first = Some (Sample.tileSet "1"))
      by (rewrite <- Hfirst; vm_compute; reflexivity).
    injection E as ->.
    assert (L : defaultValue (minimumLevel (Sample.onlyUrl "tiles"))
                  (parseInt (getAttribute (Sample.tileSet "1") "order")) = Int 1)
      by (vm_compute; reflexivity).
    cbv zeta in Hcount. rewrite L in Hsw, Hne, Hcount.
    rewrite Hts, Hr in F. injection F as Fsw Fne.
    rewrite Fsw in Hsw. injection Hsw as <-.
    rewrite Fne in Hne. injection Hne as <-.
    destruct (Hcount 0%Z 1%Z 2%Z 0%Z eq_refl eq_refl) as (Hn & Hhi & _).
    exists ts, r. do 4 (split; [assumption|]). split; [exact Hn|].
    apply Hhi. reflexivity.
  - assert (H : _ready (settled (Sample.onlyUrl "tiles") (Loaded Sample.fourTilesDocument))
                = true) by (vm_compute; reflexivity).
    assert (F : match _tilingScheme (settled (Sample.onlyUrl "tiles")
                                       (Loaded Sample.fourTilesDocument)),
                      _rectangle (settled (Sample.onlyUrl "tiles")
                                    (Loaded Sample.fourTilesDocument)) with
                | Some ts, Some r =>
                    (TilingScheme.positionToTileXY ts (Rectangle.southwest r) (Int 1),
                     TilingScheme.positionToTileXY ts (Rectangle.northeast r) (Int 1))
                | _, _ => (None, None)
                end
                = (Some (TileXY.new (Int 0) (Int 1)), Some (TileXY.new (Int 1) (Int 0))))
      by (vm_compute; reflexivity).
    split; [exact H|].
    destruct (minimumLevel_relaxed_above_four (Sample.onlyUrl "tiles")
                Sample.fourTilesDocument H)
      as (root & first & ts & r & sw & ne & Hroot & Hfirst & Hts & Hr & Hsw & Hne
          & Hcount & _).
    injection Hroot as <-.
    assert (E : Some first = Some (Sample.tileSet "1"))
      by (rewrite <- Hfirst; vm_compute; reflexivity).
    injection E as ->.
    assert (L : defaultValue (minimumLevel (Sample.onlyUrl "tiles"))
                  (parseInt (getAttribute (Sample.tileSet "1") "order")) = Int 1)
      by (vm_compute; reflexivity).
    cbv zeta in Hcount. rewrite L in Hsw, Hne, Hcount.
    rewrite Hts, Hr in F. injection F as Fsw Fne.
    rewrite Fsw in Hsw. injection Hsw as <-.
    rewrite Fne in Hne. injection Hne as <-.
    destruct (Hcount 0%Z 1%Z 1%Z 0%Z eq_refl eq_refl) as (Hn & _ & Hlo).
    exists ts, r. do 4 (split; [assumption|]). split; [exact Hn|].
    apply Hlo. discriminate.
Defined.

(** Four tiles at level 1 leave the level; six make it 0. *)
Example four_tiles_keep_the_level :
  _minimumLevel (settled (Sample.onlyUrl "tiles") (Loaded Sample.fourTilesDocument))
  = Some (Int 1)
  /\ _minimumLevel (settled (Sample.onlyUrl "tiles") (Loaded Sample.sixTilesDocument))
     = Some (Int 0)
  /\ option_map
       (fun r =>
          (TilingScheme.positionToTileXY (GeographicTilingScheme None)
             (Rectangle.southwest r) (Int 1),
           TilingScheme.positionToTileXY (GeographicTilingScheme None)
             (Rectangle.northeast r) (Int 1)))
       (_rectangle (settled (Sample.onlyUrl "tiles") (Loaded Sample.fourTilesDocument)))
     = Some (Some (TileXY.new (Int 0) (Int 1)), Some (TileXY.new (Int 1) (Int 0)))
  /\ tileCount (TileXY.new (Int 0) (Int 1)) (TileXY.new (Int 1) (Int 0)) = Int 4
  /\ option_map
       (fun r =>
          (TilingScheme.positionToTileXY (GeographicTilingScheme None)
             (Rectangle.southwest r) (Int 1),
           TilingScheme.positionToTileXY (GeographicTilingScheme None)
             (Rectangle.northeast r) (Int 1)))
       (_rectangle (settled (Sample.onlyUrl "tiles") (Loaded Sample.sixTilesDocument)))
     = Some (Some (TileXY.new (Int 0) (Int 1)), Some (TileXY.new (Int 2) (Int 0)))
  /\ tileCount (TileXY.new (Int 0) (Int 1)) (TileXY.new (Int 2) (Int 0)) = Int 6.
Proof. repeat split; vm_compute; reflexivity. Qed.

(** Profile [mercator], bounding box 10, 20, 30, 40: the rectangle goes
    from 20 degrees east, 10 north to 40 degrees east, 30 north. *)
Lemma flipped_bounding_box_witness :
  item (doc_childNodes Sample.mercatorDocument) 0
  = Some (Sample.tileMapRoot "mercator" "10" "20" "30" "40" ["0"; "1"; "2"]%string)
  /\ tilesets (scanNodes (childNodes
        (Sample.tileMapRoot "mercator" "10" "20" "30" "40" ["0"; "1"; "2"]%string)))
     = Some (Sample.tileSets "mercator" ["0"; "1"; "2"]%string)
  /\ bbox (scanNodes (childNodes
        (Sample.tileMapRoot "mercator" "10" "20" "30" "40" ["0"; "1"; "2"]%string)))
     = Some (Sample.boundingBox "10" "20" "30" "40")
  /\ getAttribute (Sample.tileSets "mercator" ["0"; "1"; "2"]%string) "profile"
     = Some "mercator"%string
  /\ rectangle (Sample.onlyUrl "tiles") = None
  /\ _ready (settled (Sample.onlyUrl "tiles") (Loaded Sample.mercatorDocument)) = true
  /\ exists ts,
      _tilingScheme (settled (Sample.onlyUrl "tiles") (Loaded Sample.mercatorDocument))
      = Some ts
      /\ _rectangle (settled (Sample.onlyUrl "tiles") (Loaded Sample.mercatorDocument))
         = Some (clampToScheme (TilingScheme.rectangle ts)
                   (Rectangle.new (Sample.toRadians 20) (Sample.toRadians 10)
                                  (Sample.toRadians 40) (Sample.toRadians 30))).
Proof.
  assert (Hready : _ready (settled (Sample.onlyUrl "tiles") (Loaded Sample.mercatorDocument))
                   = true) by (vm_compute; reflexivity).
  assert (Hprofile : getAttribute (Sample.tileSets "mercator" ["0"; "1"; "2"]%string)
                       "profile" = Some "mercator"%string) by reflexivity.
  do 5 (split; [reflexivity|]). split; [exact Hready|].
  destruct (flipped_bounding_box (Sample.onlyUrl "tiles") Sample.mercatorDocument
              (Sample.tileMapRoot "mercator" "10" "20" "30" "40" ["0"; "1"; "2"]%string)
              (Sample.tileSets "mercator" ["0"; "1"; "2"]%string)
              (Sample.boundingBox "10" "20" "30" "40")
              eq_refl eq_refl eq_refl (or_intror Hprofile) eq_refl)
    as (_ & _ & _ & _ & Hresolved).
  exact (Hresolved Hready).
Defined.

(** The resolved rectangle of that document, in radians. *)
Example mercator_document_rectangle :
  _rectangle (settled (Sample.onlyUrl "tiles") (Loaded Sample.mercatorDocument))
  = Some (Rectangle.new (Sample.toRadians 20) (Sample.toRadians 10)
                        (Sample.toRadians 40) (Sample.toRadians 30)).
Proof. vm_compute. reflexivity. Qed.

(** The same numbers under profile [global-mercator]: the points
    (10, 20) and (30, 40), unprojected by the Web Mercator scheme; and
    the globe under profile [global-geodetic]: its corners, in degrees. *)
Lemma unflipped_bounding_box_witness :
  (item (doc_childNodes Sample.globalMercatorDocument) 0
   = Some (Sample.tileMapRoot "global-mercator" "10" "20" "30" "40" ["0"; "1"; "2"]%string)
   /\ tilesets (scanNodes (childNodes
         (Sample.tileMapRoot "global-mercator" "10" "20" "30" "40" ["0"; "1"; "2"]%string)))
      = Some (Sample.tileSets "global-mercator" ["0"; "1"; "2"]%string)
   /\ bbox (scanNodes (childNodes
         (Sample.tileMapRoot "global-mercator" "10" "20" "30" "40" ["0"; "1"; "2"]%string)))
      = Some (Sample.boundingBox "10" "20" "30" "40")
   /\ flipXY_of (getAttribute (Sample.tileSets "global-mercator" ["0"; "1"; "2"]%string)
                   "profile") = false
   /\ rectangle (Sample.onlyUrl "tiles") = None
   /\ _ready (settled (Sample.onlyUrl "tiles") (Loaded Sample.globalMercatorDocument)) = true
   /\ _tilingScheme (settled (Sample.onlyUrl "tiles") (Loaded Sample.globalMercatorDocument))
      = Some (WebMercatorTilingScheme None)
   /\ _rectangle (settled (Sample.onlyUrl "tiles") (Loaded Sample.globalMercatorDocument))
      = Some (clampToScheme (TilingScheme.rectangle (WebMercatorTilingScheme None))
                (Rectangle.new
                   (Cartographic.longitude
                      (TilingScheme.unproject (WebMercatorTilingScheme None)
                         (Cartesian2.new 10 20)))
                   (Cartographic.latitude
                      (TilingScheme.unproject (WebMercatorTilingScheme None)
                         (Cartesian2.new 10 20)))
                   (Cartographic.longitude
                      (TilingScheme.unproject (WebMercatorTilingScheme None)
                         (Cartesian2.new 30 40)))
                   (Cartographic.latitude
                      (TilingScheme.unproject (WebMercatorTilingScheme None)
                         (Cartesian2.new 30 40))))))
  /\ (item (doc_childNodes Sample.worldDocument) 0
      = Some (Sample.tileMapRoot "global-geodetic" "-180" "-90" "180" "90"
                ["0"; "1"; "2"; "3"]%string)
      /\ tilesets (scanNodes (childNodes
            (Sample.tileMapRoot "global-geodetic" "-180" "-90" "180" "90"
               ["0"; "1"; "2"; "3"]%string)))
         = Some (Sample.tileSets "global-geodetic" ["0"; "1"; "2"; "3"]%string)
      /\ bbox (scanNodes (childNodes
            (Sample.tileMapRoot "global-geodetic" "-180" "-90" "180" "90"
               ["0"; "1"; "2"; "3"]%string)))
         = Some (Sample.boundingBox "-180" "-90" "180" "90")
      /\ flipXY_of (getAttribute
                      (Sample.tileSets "global-geodetic" ["0"; "1"; "2"; "3"]%string)
                      "profile") = false
      /\ rectangle (Sample.onlyUrl "tiles") = None
      /\ _ready (settled (Sample.onlyUrl "tiles") (Loaded Sample.worldDocument)) = true
      /\ _tilingScheme (settled (Sample.onlyUrl "tiles") (Loaded Sample.worldDocument))
         = Some (GeographicTilingScheme None)
      /\ _rectangle (settled (Sample.onlyUrl "tiles") (Loaded Sample.worldDocument))
         = Some (clampToScheme (TilingScheme.rectangle (GeographicTilingScheme None))
                   (Rectangle.new (toRadians (-180)) (toRadians (-90))
                                  (toRadians 180) (toRadians 90)))).
Proof.
  split.
  - assert (Hready : _ready (settled (Sample.onlyUrl "tiles")
                               (Loaded Sample.globalMercatorDocument)) = true)
      by (vm_compute; reflexivity).
    do 5 (split; [reflexivity|]). split; [exact Hready|].
    destruct (unflipped_bounding_box (Sample.onlyUrl "tiles") Sample.globalMercatorDocument
                (Sample.tileMapRoot "global-mercator" "10" "20" "30" "40"
                   ["0"; "1"; "2"]%string)
                (Sample.tileSets "global-mercator" ["0"; "1"; "2"]%string)
                (Sample.boundingBox "10" "20" "30" "40")
                eq_refl eq_refl eq_refl eq_refl eq_refl)
      as (_ & Hresolved).
    destruct (Hresolved Hready) as (ts & Hts & _ & _ & _ & Hmercator & _).
    destruct (Hmercator eq_refl eq_refl) as (-> & _ & Hrect).
    split; [exact Hts | exact Hrect].
  - assert (Hready : _ready (settled (Sample.onlyUrl "tiles")
                               (Loaded Sample.worldDocument)) = true)
      by (vm_compute; reflexivity).
    do 5 (split; [reflexivity|]). split; [exact Hready|].
    destruct (unflipped_bounding_box (Sample.onlyUrl "tiles") Sample.worldDocument
                (Sample.tileMapRoot "global-geodetic" "-180" "-90" "180" "90"
                   ["0"; "1"; "2"; "3"]%string)
                (Sample.tileSets "global-geodetic" ["0"; "1"; "2"; "3"]%string)
                (Sample.boundingBox "-180" "-90" "180" "90")
                eq_refl eq_refl eq_refl eq_refl eq_refl)
      as (_ & Hresolved).
    destruct (Hresolved Hready) as (ts & Hts & _ & _ & _ & _ & Hgeodetic).
    destruct (Hgeodetic eq_refl eq_refl) as (-> & _ & Hrect).
    split; [exact Hts | exact Hrect].
Defined.

(** The rectangle of the [mercator] document lies inside the scheme's. *)
Lemma resolved_rectangle_clamped_witness :
  _ready (settled (Sample.onlyUrl "tiles") (Loaded Sample.mercatorDocument)) = true
  /\ exists ts r,
      _tilingScheme (settled (Sample.onlyUrl "tiles") (Loaded Sample.mercatorDocument))
      = Some ts
      /\ _rectangle (settled (Sample.onlyUrl "tiles") (Loaded Sample.mercatorDocument))
         = Some r
      /\ (Rectangle.west r <? Rectangle.west (TilingScheme.rectangle ts)) = false
      /\ (Rectangle.east (TilingScheme.rectangle ts) <? Rectangle.east r) = false
      /\ (Rectangle.south r <? Rectangle.south (TilingScheme.rectangle ts)) = false
      /\ (Rectangle.north (TilingScheme.rectangle ts) <? Rectangle.north r) = false.
Proof.
  assert (H : _ready (settled (Sample.onlyUrl "tiles") (Loaded Sample.mercatorDocument))
              = true) by (vm_compute; reflexivity).
  split; [exact H|].
  destruct (resolved_rectangle_clamped (Sample.onlyUrl "tiles") Sample.mercatorDocument H)
    as (root & tsn & ts & r0 & r & _ & _ & Hts & _ & Hr & _ & Hinside & _).
  exists ts, r. split; [exact Hts|]. split; [exact Hr|]. exact Hinside.
Defined.

(** C8 as stated fails on a rectangle across the date line, from 3
    radians east to 3 radians west: it lies within the geographic scheme's
    edge by edge, resolves, and keeps its west east of its east. *)
Lemma resolved_rectangle_order_counterexample :
  _ready (settled Sample.acrossDateLine (Loaded Sample.worldDocument)) = true
  /\ rectangle Sample.acrossDateLine = Some (Rectangle.new 3 (-1) (-3) 1)
  /\ _rectangle (settled Sample.acrossDateLine (Loaded Sample.worldDocument))
     = Some (Rectangle.new 3 (-1) (-3) 1)
  /\ option_map (fun r => Rectangle.west r <=? Rectangle.east r)
       (_rectangle (settled Sample.acrossDateLine (Loaded Sample.worldDocument)))
     = Some false.
Proof. repeat split; vm_compute; reflexivity. Qed.

(** A document without a tile format, and nothing but the URL given. *)
Lemma metadataSuccess_without_tileformat_witness :
  doc_childNodes Sample.unknownProfileWithoutTileFormat
  = [Sample.rootWithoutTileFormat "unknown-value" "-180" "-90" "180" "90"
       ["0"; "1"]%string]
  /\ forallb (fun n => negb (test tileFormatRegex (nodeName n)))
       (childNodes (Sample.rootWithoutTileFormat "unknown-value" "-180" "-90" "180" "90"
                      ["0"; "1"]%string)) = true
  /\ metadataSuccess (Sample.onlyUrl "tiles") Sample.unknownProfileWithoutTileFormat
       (TileMapServiceImageryProvider (Sample.onlyUrl "tiles"))
     = (Throw (TypeError "format"), TileMapServiceImageryProvider (Sample.onlyUrl "tiles"))
  /\ _ready (settled (Sample.onlyUrl "tiles")
               (Loaded Sample.unknownProfileWithoutTileFormat)) = false
  /\ _readyPromise (settled (Sample.onlyUrl "tiles")
                      (Loaded Sample.unknownProfileWithoutTileFormat)) = Pending.
Proof.
  assert (Hnone : forallb (fun n => negb (test tileFormatRegex (nodeName n)))
                    (childNodes (Sample.rootWithoutTileFormat "unknown-value" "-180" "-90"
                                   "180" "90" ["0"; "1"]%string)) = true)
    by (vm_compute; reflexivity).
  split; [reflexivity|]. split; [exact Hnone|].
  exact (metadataSuccess_without_tileformat (Sample.onlyUrl "tiles")
           Sample.unknownProfileWithoutTileFormat _ [] eq_refl Hnone).
Defined.

(** With every scalar given in [options] the same document still
    throws. *)
Example every_override_without_tileformat :
  fst (metadataSuccess Sample.everyOverride Sample.unknownProfileWithoutTileFormat
         (TileMapServiceImageryProvider Sample.everyOverride))
  = Throw (TypeError "format")
  /\ _ready (settled Sample.everyOverride (Loaded Sample.unknownProfileWithoutTileFormat))
     = false.
Proof. split; vm_compute; reflexivity. Qed.

(** A scheme from the caller and the profile [unknown-value]. *)
Lemma supplied_scheme_skips_profile_check_witness :
  tilingScheme Sample.withScheme = Some (GeographicTilingScheme None)
  /\ fst (metadataSuccess Sample.withScheme Sample.unknownProfileDocument
            (TileMapServiceImageryProvider Sample.withScheme)) = Normal tt
  /\ _ready (settled Sample.withScheme (Loaded Sample.unknownProfileDocument)) = true
  /\ _readyPromise (settled Sample.withScheme (Loaded Sample.unknownProfileDocument))
     = Resolved true
  /\ _tilingScheme (settled Sample.withScheme (Loaded Sample.unknownProfileDocument))
     = Some (GeographicTilingScheme None).
Proof.
  split; [reflexivity|].
  destruct (supplied_scheme_skips_profile_check Sample.withScheme
              Sample.unknownProfileDocument (GeographicTilingScheme None) eq_refl)
    as (_ & Hready & _).
  destruct (Hready
              (Sample.tileMapRoot "unknown-value" "-180" "-90" "180" "90" ["0"; "1"]%string)
              Sample.tileFormat (Sample.tileSet "0")
              (Sample.tileSets "unknown-value" ["0"; "1"]%string)
              Sample.geographicRectangle
              (TileXY.new (Int 0) (Int 0)) (TileXY.new (Int 1) (Int 0)))
    as (Hrun & Hr & Hpromise & Hts & _); try (vm_compute; reflexivity).
  repeat split; assumption.
Defined.

(** C10 as stated fails on the document with profile [unknown-value] and
    no tile format: it throws as before, scheme or no scheme; and so do
    the documents without a tile set, without a bounding box, and with a
    bounding box whose corners no tile holds. *)
Lemma supplied_scheme_counterexample :
  tilingScheme Sample.withScheme = Some (GeographicTilingScheme None)
  /\ tilesets (scanNodes (childNodes
        (Sample.rootWithoutTileFormat "unknown-value" "-180" "-90" "180" "90"
           ["0"; "1"]%string)))
     = Some (Sample.tileSets "unknown-value" ["0"; "1"]%string)
  /\ fst (metadataSuccess Sample.withScheme Sample.unknownProfileWithoutTileFormat
            (TileMapServiceImageryProvider Sample.withScheme))
     = Throw (TypeError "format")
  /\ _ready (settled Sample.withScheme (Loaded Sample.unknownProfileWithoutTileFormat))
     = false
  /\ _readyPromise (settled Sample.withScheme (Loaded Sample.unknownProfileWithoutTileFormat))
     = Pending
  /\ fst (metadataSuccess Sample.withScheme Sample.withoutTileSet
            (TileMapServiceImageryProvider Sample.withScheme))
     = Throw (TypeError "tilesetsList[0]")
  /\ fst (metadataSuccess Sample.withScheme Sample.withoutBoundingBox
            (TileMapServiceImageryProvider Sample.withScheme))
     = Throw (TypeError "bbox")
  /\ fst (metadataSuccess Sample.withScheme Sample.emptyBoundingBox
            (TileMapServiceImageryProvider Sample.withScheme))
     = Throw (TypeError "neTile")
  /\ _ready (settled Sample.withScheme (Loaded Sample.emptyBoundingBox)) = false.
Proof. repeat split; vm_compute; reflexivity. Qed.

(* ================================================================== *)
(** ** The further properties on concrete documents *)

(** The SRS element of the [mercator] document can be left out. *)
Lemma other_nodes_are_ignored_witness :
  test tileFormatRegex (nodeName (Sample.element "SRS" [] [])) = false
  /\ test tileSetsRegex (nodeName (Sample.element "SRS" [] [])) = false
  /\ test bboxRegex (nodeName (Sample.element "SRS" [] [])) = false
  /\ metadataSuccess (Sample.onlyUrl "tiles") Sample.mercatorDocument
       (TileMapServiceImageryProvider (Sample.onlyUrl "tiles"))
     = metadataSuccess (Sample.onlyUrl "tiles")
         (mkDocument
            [Sample.element "TileMap" [("version", "1.0.0")]%string
               [Sample.element "Title" [] [];
                Sample.boundingBox "10" "20" "30" "40";
                Sample.tileFormat;
                Sample.tileSets "mercator" ["0"; "1"; "2"]%string]])
         (TileMapServiceImageryProvider (Sample.onlyUrl "tiles")).
Proof.
  do 3 (split; [vm_compute; reflexivity|]).
  exact (other_nodes_are_ignored (Sample.onlyUrl "tiles")
           "TileMap"%string [("version", "1.0.0")]%string ""%string []
           [Sample.element "Title" [] []]
           (Sample.element "SRS" [] [])
           [Sample.boundingBox "10" "20" "30" "40"; Sample.tileFormat;
            Sample.tileSets "mercator" ["0"; "1"; "2"]%string]
           (TileMapServiceImageryProvider (Sample.onlyUrl "tiles"))
           eq_refl eq_refl eq_refl).
Defined.

(** With the rectangle of [Sample.everyOverride] the bounding box of the
    globe's document can be left out. *)
Lemma given_rectangle_skips_bounding_box_witness :
  rectangle Sample.everyOverride = Some (Rectangle.new (-4) (-2) 4 2)
  /\ test tileFormatRegex (nodeName (Sample.boundingBox "-180" "-90" "180" "90")) = false
  /\ test tileSetsRegex (nodeName (Sample.boundingBox "-180" "-90" "180" "90")) = false
  /\ metadataSuccess Sample.everyOverride Sample.worldDocument
       (TileMapServiceImageryProvider Sample.everyOverride)
     = metadataSuccess Sample.everyOverride
         (mkDocument
            [Sample.element "TileMap" [("version", "1.0.0")]%string
               [Sample.element "Title" [] [];
                Sample.element "SRS" [] [];
                Sample.tileFormat;
                Sample.tileSets "global-geodetic" ["0"; "1"; "2"; "3"]%string]])
         (TileMapServiceImageryProvider Sample.everyOverride).
Proof.
  split; [reflexivity|]. do 2 (split; [vm_compute; reflexivity|]).
  exact (given_rectangle_skips_bounding_box Sample.everyOverride
           "TileMap"%string [("version", "1.0.0")]%string ""%string []
           [Sample.element "Title" [] []; Sample.element "SRS" [] []]
           (Sample.boundingBox "-180" "-90" "180" "90")
           [Sample.tileFormat;
            Sample.tileSets "global-geodetic" ["0"; "1"; "2"; "3"]%string]
           (Rectangle.new (-4) (-2) 4 2)
           eq_refl eq_refl eq_refl).
Defined.


(** The getters of the provider of the [mercator] document. *)
Lemma getters_of_ready_provider_witness :
  _ready (settled (Sample.onlyUrl "tiles") (Loaded Sample.mercatorDocument)) = true
  /\ get_url (settled (Sample.onlyUrl "tiles") (Loaded Sample.mercatorDocument))
     = "tiles"%string
  /\ (exists w,
         get_tileWidth (settled (Sample.onlyUrl "tiles") (Loaded Sample.mercatorDocument))
         = inr (Some w))
  /\ (exists r,
         get_rectangle (settled (Sample.onlyUrl "tiles") (Loaded Sample.mercatorDocument))
         = inr (Some r)).
Proof.
  assert (H : _ready (settled (Sample.onlyUrl "tiles") (Loaded Sample.mercatorDocument))
              = true) by (vm_compute; reflexivity).
  split; [exact H|].
  destruct (getters_of_ready_provider (Sample.onlyUrl "tiles")
              (Loaded Sample.mercatorDocument) H)
    as (Hurl & _ & Hw & _ & _ & _ & Hr & _).
  split; [exact Hurl|]. split; [exact Hw | exact Hr].
Defined.

(** The top row of a level with four rows. *)
Lemma flippedRow_reverses_rows_witness :
  (0 <= 0 < 4)%Z
  /\ exists y', flippedRow (Int 4) (Int 0) = Int y' /\ (0 <= y' < 4)%Z.
Proof.
  assert (H : (0 <= 0 < 4)%Z) by lia.
  split; [exact H|].
  destruct (flippedRow_reverses_rows 4 0 H) as (y' & E & Hy & _).
  exists y'. split; assumption.
Defined.

Lemma Sample_joinUrls_injective (u a b : string) :
  Sample.joinUrls u a = Sample.joinUrls u b -> a = b.
Proof.
  unfold Sample.joinUrls. destruct (Sample.endsWithSlash u); intros E.
  - exact (append_cancel_l _ _ _ E).
  - apply append_cancel_l in E. now injection E.
Qed.

(** The provider that fell back on the defaults, tile (1, 0) of level 2. *)
Lemma buildImageUrl_injective_witness :
  _tilingScheme (settled (Sample.onlyUrl "tiles") Failed)
  = Some (WebMercatorTilingScheme None)
  /\ TilingScheme.getNumberOfYTilesAtLevel (WebMercatorTilingScheme None) (Int 2) = Int 4
  /\ buildImageUrl (settled (Sample.onlyUrl "tiles") Failed) (Int 1) (Int 0) (Int 2)
     = buildImageUrl (settled (Sample.onlyUrl "tiles") Failed) (Int 1) (Int 0) (Int 2)
  /\ (1 = 1 /\ 0 = 0 /\ 2 = 2)%Z.
Proof.
  assert (Hts : _tilingScheme (settled (Sample.onlyUrl "tiles") Failed)
                = Some (WebMercatorTilingScheme None)) by reflexivity.
  assert (Hrows : TilingScheme.getNumberOfYTilesAtLevel (WebMercatorTilingScheme None)
                    (Int 2) = Int 4) by (vm_compute; reflexivity).
  split; [exact Hts|]. split; [exact Hrows|]. split; [reflexivity|].
  apply (buildImageUrl_injective (settled (Sample.onlyUrl "tiles") Failed)
           (WebMercatorTilingScheme None) 4 1 0 2 1 0 2 Hts).
  - intros a b. apply Sample_joinUrls_injective.
  - intros px Hpx. discriminate Hpx.
  - exact Hrows.
  - reflexivity.
Defined.

(** Profile [mercator]: the Web Mercator scheme, and the flip. *)
Lemma profile_fixes_scheme_and_flip_witness :
  _ready (settled (Sample.onlyUrl "tiles") (Loaded Sample.mercatorDocument)) = true
  /\ tilingScheme (Sample.onlyUrl "tiles") = None
  /\ _tilingScheme (settled (Sample.onlyUrl "tiles") (Loaded Sample.mercatorDocument))
     = Some (WebMercatorTilingScheme None)
  /\ flipXY_of (getAttribute (Sample.tileSets "mercator" ["0"; "1"; "2"]%string) "profile")
     = true.
Proof.
  assert (H : _ready (settled (Sample.onlyUrl "tiles") (Loaded Sample.mercatorDocument))
              = true) by (vm_compute; reflexivity).
  split; [exact H|]. split; [reflexivity|].
  destruct (profile_fixes_scheme_and_flip (Sample.onlyUrl "tiles") Sample.mercatorDocument
              (Sample.tileMapRoot "mercator" "10" "20" "30" "40" ["0"; "1"; "2"]%string)
              (Sample.tileSets "mercator" ["0"; "1"; "2"]%string)
              H eq_refl eq_refl eq_refl)
    as [(E & _) | [(E & _) | [(_ & Hs & Hf) | (E & _)]]]; try discriminate E.
  split; [exact Hs | exact Hf].
Defined.

(** A scheme and a rectangle from the caller: the profile of the
    document can be anything. *)
Lemma given_scheme_and_rectangle_ignore_profile_witness :
  tilingScheme schemeAndRectangle = Some (GeographicTilingScheme None)
  /\ rectangle schemeAndRectangle = Some (Rectangle.new (-1) (-1) 1 1)
  /\ test tileFormatRegex "TileSets" = false
  /\ test tileSetsRegex "TileSets" = true
  /\ metadataSuccess schemeAndRectangle Sample.unknownProfileDocument
       (TileMapServiceImageryProvider schemeAndRectangle)
     = metadataSuccess schemeAndRectangle
         (Sample.tileMap "mercator" "-180" "-90" "180" "90" ["0"; "1"]%string)
         (TileMapServiceImageryProvider schemeAndRectangle).
Proof.
  do 2 (split; [reflexivity|]). do 2 (split; [vm_compute; reflexivity|]).
  exact (given_scheme_and_rectangle_ignore_profile schemeAndRectangle
           "TileMap"%string [("version", "1.0.0")]%string ""%string []
           [Sample.element "Title" [] []; Sample.element "SRS" [] [];
            Sample.boundingBox "-180" "-90" "180" "90"; Sample.tileFormat]
           []
           "TileSets"%string
           (map Sample.tileSet ["0"; "1"]%string) ""%string
           [("profile", "unknown-value")]%string [("profile", "mercator")]%string
           (GeographicTilingScheme None) (Rectangle.new (-1) (-1) 1 1)
           eq_refl eq_refl eq_refl eq_refl).
Defined.
